(** * FriendDetectorNearby2026: a channel-hopping WiFi frame sniffer

    Shallow embedding of [FriendDetectorNearby2026.ino]: the frame callback
    [cb], the start-up routine [setup] and the scan cycle [loop], together
    with the statements of the specification that concern them.

    The sketch talks to three collaborators (the serial port, the radio
    capture library and the host's clock and scheduler).  Every call to one
    of them is recorded as an [event]; the state of the program is the
    history of events so far, and what the collaborators answer is given by
    a [host], whose answers may depend on the whole history. *)

From Stdlib Require Import ZArith List String Ascii Bool Lia.
From Stdlib Require Import Strings.Byte.
Import ListNotations.

Local Open Scope Z_scope.
Local Open Scope list_scope.

(** ** Text helpers *)

(** The line feed character, written ["\n"] in the sketch. *)
Definition LF : ascii := ascii_of_nat 10.
Definition CR : ascii := ascii_of_nat 13.

Definition nl : string := String LF EmptyString.
Definition crlf : string := String CR (String LF EmptyString).

Definition chars (s : string) : list ascii := list_ascii_of_string s.

(** [ends_with s suf]: [suf] is a suffix of [s]. *)
Definition ends_with (s suf : string) : Prop :=
  exists pre : string, s = (pre ++ suf)%string.

(** ** Number rendering of the Arduino [Print] class *)

Module Print.

(** [c + '0'] for a digit value [c]. *)
Definition digit_char (c : Z) : ascii :=
  ascii_of_nat (Z.to_nat (c + 48)).

(** [Print::printNumber(n, 10)]:
    [do { c = n % base; n /= base; *--str = c + '0'; } while (n);]
    The buffer is filled from its end, so each digit is put in front of
    the text produced so far.  [fuel] bounds the number of further turns
    after the first one. *)
Fixpoint printNumber_loop (fuel : nat) (n : Z) (str : string) : string :=
  let c := n mod 10 in
  let n' := n / 10 in
  let str' := String (digit_char c) str in
  match fuel with
  | O => str'
  | S k => if n' =? 0 then str' else printNumber_loop k n' str'
  end.

(** A number has no more decimal digits than binary ones. *)
Definition printNumber (n : Z) : string :=
  printNumber_loop (Z.to_nat (Z.log2 n)) n EmptyString.

(** [Print::print(long n, DEC)]: a minus sign and the magnitude when
    [n < 0].  [Serial.print] of an [int], of a [signed] and of a
    [uint8_t] all end here (or directly in [printNumber]) with the value
    unchanged. *)
Definition print_long (n : Z) : string :=
  if n <? 0 then String "-"%char (printNumber (- n)) else printNumber n.

(** The digit of [printf]'s [%x]: lower case. *)
Definition hex_char (c : Z) : ascii :=
  if c <? 10 then ascii_of_nat (Z.to_nat (c + 48))
  else ascii_of_nat (Z.to_nat (c - 10 + 97)).

(** [printf("%02x", b)] for a [uint8_t b]: two digits, zero padded. *)
Definition printf_02x (b : byte) : string :=
  let v := Z.of_N (Byte.to_N b) in
  String (hex_char (v / 16)) (String (hex_char (v mod 16)) EmptyString).

(** Reading a numeral back, used to say what "decimal" and "hexadecimal"
    mean. *)
Definition digit_value (c : ascii) : Z := Z.of_nat (nat_of_ascii c) - 48.

Fixpoint decimal_from (acc : Z) (s : string) : Z :=
  match s with
  | EmptyString => acc
  | String c r => decimal_from (10 * acc + digit_value c) r
  end.

Definition is_digit (c : ascii) : bool :=
  (48 <=? Z.of_nat (nat_of_ascii c)) && (Z.of_nat (nat_of_ascii c) <=? 57).

(** The value of a decimal numeral with an optional leading minus. *)
Definition decimal_value (s : string) : Z :=
  match s with
  | EmptyString => 0
  | String c r =>
      if Ascii.eqb c "-" then - decimal_from 0 r else decimal_from 0 s
  end.

Definition is_lower_hex (c : ascii) : bool :=
  let v := Z.of_nat (nat_of_ascii c) in
  ((48 <=? v) && (v <=? 57)) || ((97 <=? v) && (v <=? 102)).

Definition hex_digit_value (c : ascii) : Z :=
  let v := Z.of_nat (nat_of_ascii c) in
  if v <=? 57 then v - 48 else v - 97 + 10.

Fixpoint hex_from (acc : Z) (s : string) : Z :=
  match s with
  | EmptyString => acc
  | String c r => hex_from (16 * acc + hex_digit_value c) r
  end.

End Print.

(** ** Frames *)

(** The fields of [esppl_frame_info] that the sketch reads.  The structure
    is declared in a header that the sketch includes; as the data model of
    the specification has it, [frametype], [framesubtype] and [channel] are
    small unsigned integers, [rssi] is a signed integer and [sourceaddr] is
    an array of six bytes.  The integers are kept in [Z]: nothing below
    depends on their width. *)
Record esppl_frame_info : Type := mk_frame_info {
  frametype : Z;
  framesubtype : Z;
  rssi : Z;
  channel : Z;
  sourceaddr : list byte
}.

(** [#define RSSI_THRESHOLD -60] *)
Definition RSSI_THRESHOLD : Z := -60.

(** ** Events, hosts and programs *)

Inductive event : Type :=
| Delay (ms : Z)                                  (* delay(ms) *)
| SerialBegin (baud : Z)                          (* Serial.begin(baud) *)
| EspplInit                                       (* esppl_init(cb) *)
| SerialWrite (s : string)                        (* text sent to Serial *)
| SniffingStart                                   (* esppl_sniffing_start() *)
| SetChannel (ch : Z)                             (* esppl_set_channel(ch) *)
| Millis (t : Z)                                  (* millis() returned t *)
| ProcessFrames (delivered : list esppl_frame_info)
                                                  (* esppl_process_frames() *)
| Yield.                                          (* yield() *)

Definition history : Type := list event.

(** What the outside world answers, as a function of everything that has
    happened so far: the reading of the millisecond clock, and the frames
    that the capture library hands to the callback during one poll. *)
Record host : Type := mk_host {
  clock : history -> Z;
  inbox : history -> list esppl_frame_info
}.

(** A program extends the history and returns a value; [None] means that
    the fuel given to a [while] loop ran out. *)
Definition prog (A : Type) : Type := history -> option (A * history).

Definition ret {A : Type} (a : A) : prog A := fun h => Some (a, h).

Definition bind {A B : Type} (p : prog A) (k : A -> prog B) : prog B :=
  fun h => match p h with
           | Some (a, h') => k a h'
           | None => None
           end.

Definition out_of_fuel {A : Type} : prog A := fun _ => None.

Definition emit (e : event) : prog unit := fun h => Some (tt, h ++ [e]).

Declare Scope prog_scope.
Delimit Scope prog_scope with prog.
Notation "x <- p ;; k" := (bind p (fun x => k))
  (at level 61, p at next level, right associativity) : prog_scope.
Notation "p ;; k" := (bind p (fun _ => k))
  (at level 61, right associativity) : prog_scope.
Local Open Scope prog_scope.

(** [for (int i = lo; i < lo + count; i++) body(i);] *)
Fixpoint for_range (lo count : nat) (body : nat -> prog unit) : prog unit :=
  match count with
  | O => ret tt
  | S r => body lo ;; for_range (S lo) r body
  end.

(** ** The serial port *)

(** [Serial.print(const char* )] *)
Definition Serial_print (s : string) : prog unit := emit (SerialWrite s).

(** [Serial.print(int)], [Serial.print(signed)], [Serial.print(uint8_t)] *)
Definition Serial_print_int (n : Z) : prog unit :=
  emit (SerialWrite (Print.print_long n)).

(** [Serial.printf("%02x", b)] *)
Definition Serial_printf_02x (b : byte) : prog unit :=
  emit (SerialWrite (Print.printf_02x b)).

(** [Serial.println(const char* )]: the text, then carriage return and line
    feed. *)
Definition Serial_println (s : string) : prog unit :=
  emit (SerialWrite (s ++ crlf)%string).

(** Everything written to the serial port so far: the operator's view. *)
Fixpoint serial_output (h : history) : string :=
  match h with
  | [] => EmptyString
  | SerialWrite s :: r => (s ++ serial_output r)%string
  | _ :: r => serial_output r
  end.

(** ** The frame callback *)

(** [void cb(esppl_frame_info *info)] *)
Definition cb (info : esppl_frame_info) : prog unit :=
  (* 1. FILTER: IGNORE BEACONS *)
  if framesubtype info =? 8 then ret tt else
  (* 2. RSSI FILTER *)
  if rssi info <? RSSI_THRESHOLD then ret tt else
  (* 3. PRINT PACKET DETAILS *)
  Serial_print nl ;;
  Serial_print "FT: " ;;
  Serial_print_int (frametype info) ;;
  Serial_print " FST: " ;;
  Serial_print_int (framesubtype info) ;;
  Serial_print " RSSI: " ;;
  Serial_print_int (rssi info) ;;
  Serial_print " CH: " ;;
  Serial_print_int (channel info) ;;
  Serial_print " SRC: " ;;
  for_range 0 6 (fun i => Serial_printf_02x (nth i (sourceaddr info) x00)) ;;
  if framesubtype info =? 4 then Serial_print " [PROBE]" else ret tt.

(** ** Configuration *)

(** [int channels[] = {1, 4, 6, 11};] *)
Definition channels : list Z := [1; 4; 6; 11].

(** [int channelCount = sizeof(channels) / sizeof(channels[0]);] *)
Definition channelCount : nat := List.length channels.

(** The dwell time written in [loop]: 250 ms. *)
Definition DWELL_MS : Z := 250.

(** The two globals and the dwell time, gathered so that the scan cycle can
    also be read under another configuration than the one shipped. *)
Record config : Type := mk_config {
  cfg_channels : list Z;
  cfg_dwell : Z
}.

Definition shipped : config := mk_config channels DWELL_MS.

(** [unsigned long] is 32 bits wide on the target. *)
Definition ULONG_MOD : Z := 2 ^ 32.
Definition to_ulong (z : Z) : Z := z mod ULONG_MOD.

(** [millis() - start < 250], in [unsigned long] arithmetic. *)
Definition within_dwell (cfg : config) (start now : Z) : bool :=
  to_ulong (now - start) <? to_ulong (cfg_dwell cfg).

(** ** Start-up *)

Definition banner : string :=
  "Sniffer started. Scanning channels: 1, 4, 6, 11".

(** [void setup()].  It reads neither [channels] nor the dwell time. *)
Definition setup : prog unit :=
  emit (Delay 500) ;;
  emit (SerialBegin 115200) ;;
  emit EspplInit ;;
  Serial_println banner.

(** ** The scan cycle *)

Section Scan.

Variable env : host.

(** [millis()]: the host's clock, as an [unsigned long]. *)
Definition millis : prog Z :=
  fun h => let t := to_ulong (clock env h) in Some (t, h ++ [Millis t]).

(** [callback(f)] for each delivered frame, in the order of delivery. *)
Fixpoint deliver (callback : esppl_frame_info -> prog unit)
                 (fs : list esppl_frame_info) : prog unit :=
  match fs with
  | [] => ret tt
  | f :: r => callback f ;; deliver callback r
  end.

(** Modelled from the spec: [esppl_process_frames] of the absent
    [esppl_functions.h], "a non-blocking poll call returning whether at
    least one frame was delivered to the callback during this poll"; "the
    callback receives one CapturedFrame per invocation".  The callback is
    the one that [setup] registered with [esppl_init]. *)
Definition esppl_process_frames
           (callback : esppl_frame_info -> prog unit) : prog bool :=
  fun h =>
    let fs := inbox env h in
    (emit (ProcessFrames fs) ;;
     deliver callback fs ;;
     ret (negb (match fs with [] => true | _ => false end))) h.

(** [while (esppl_process_frames()) { }] *)
Fixpoint drain (fuel : nat) : prog unit :=
  match fuel with
  | O => out_of_fuel
  | S k =>
      more <- esppl_process_frames cb ;;
      if more then drain k else ret tt
  end.

Variable cfg : config.

(** [while (millis() - start < 250) { while (esppl_process_frames()) { }
    yield(); }] *)
Fixpoint dwell (fuel : nat) (start : Z) : prog unit :=
  match fuel with
  | O => out_of_fuel
  | S k =>
      now <- millis ;;
      if within_dwell cfg start now then
        drain k ;;
        emit Yield ;;
        dwell k start
      else ret tt
  end.

(** The body of the [for] loop, for index [i]. *)
Definition visit (fuel : nat) (i : nat) : prog unit :=
  let currentChannel := nth i (cfg_channels cfg) 0 in
  emit (SetChannel currentChannel) ;;
  start <- millis ;;
  dwell fuel start.

(** The body of [loop] under configuration [cfg]. *)
Definition scan_cycle (fuel : nat) : prog unit :=
  emit SniffingStart ;;
  for_range 0 (List.length (cfg_channels cfg)) (visit fuel).

End Scan.

(** [void loop()], with the configuration of the sketch. *)
Definition loop (env : host) (fuel : nat) : prog unit :=
  scan_cycle env shipped fuel.

(** The Arduino core runs [setup()] once and then [loop()] over and over;
    [sketch env cfg fuel n] is the run up to the end of the [n]-th cycle. *)
Fixpoint cycles (env : host) (cfg : config) (fuel : nat) (n : nat)
  : prog unit :=
  match n with
  | O => ret tt
  | S m => scan_cycle env cfg fuel ;; cycles env cfg fuel m
  end.

Definition sketch (env : host) (cfg : config) (fuel : nat) (n : nat)
  : prog unit :=
  setup ;; cycles env cfg fuel n.

(** ** Observers *)

(** The channels activated, in the order of activation. *)
Fixpoint activations (h : history) : list Z :=
  match h with
  | [] => []
  | SetChannel c :: r => c :: activations r
  | _ :: r => activations r
  end.

(** Modelled from the spec: the radio's active channel, which the absent
    capture library keeps; "a call to set the active channel by number",
    and the channel is "mutated only by ChannelScheduler".  It is the
    channel of the last activation, if any. *)
Definition active_channel (h : history) : option Z :=
  last (map Some (activations h)) None.

Definition is_yield (e : event) : bool :=
  match e with Yield => true | _ => false end.

Definition is_millis (e : event) : bool :=
  match e with Millis _ => true | _ => false end.

Definition is_set_channel (e : event) : bool :=
  match e with SetChannel _ => true | _ => false end.

(** What a program adds to the serial port when started in [h]. *)
Definition printed {A : Type} (p : prog A) (h : history) : option string :=
  match p h with
  | Some (_, h') =>
      Some (substring (String.length (serial_output h))
                      (String.length (serial_output h')
                       - String.length (serial_output h))
                      (serial_output h'))
  | None => None
  end.

(** ** Sample data *)

Definition probe_frame : esppl_frame_info :=
  mk_frame_info 0 4 (-55) 6 [xaa; xbb; xcc; xdd; xee; xff].

Definition beacon_frame : esppl_frame_info :=
  mk_frame_info 0 8 (-30) 1 [x00; x11; x22; x33; x44; x55].

Definition weak_frame : esppl_frame_info :=
  mk_frame_info 2 0 (-70) 11 [x0a; x0b; x0c; x0d; x0e; x0f].

Definition edge_frame : esppl_frame_info :=
  mk_frame_info 2 0 (-60) 11 [x0a; x0b; x0c; x0d; x0e; x0f].

Definition is_poll (e : event) : bool :=
  match e with ProcessFrames _ => true | _ => false end.

(** A host whose clock advances by 100 ms at each reading and whose first
    poll delivers three frames. *)
Definition sample_host : host :=
  mk_host
    (fun h => 100 * Z.of_nat (List.length (filter is_millis h)))
    (fun h => if existsb is_poll h then []
              else [probe_frame; beacon_frame; edge_frame]).

(** ** Line breaks *)

Definition is_line_break (c : ascii) : bool :=
  Ascii.eqb c LF || Ascii.eqb c CR.

(** [one_line s]: no line feed and no carriage return occurs in [s]. *)
Definition one_line (s : string) : bool :=
  forallb (fun c => negb (is_line_break c)) (chars s).

(** ** The report, as the specification words it *)

(** The source address as the callback reads it, byte 0 to byte 5, each as
    two hexadecimal digits and nothing in between. *)
Definition source_hex (addr : list byte) : string :=
  String.concat EmptyString
    (map (fun i => Print.printf_02x (nth i addr x00)) (seq 0 6)).

Definition probe_marker : string := " [PROBE]".

(** Frame type, subtype, signal strength and channel in decimal and the
    source address in hexadecimal, in this order, each after its label. *)
Definition report_body (info : esppl_frame_info) : string :=
  ("FT: " ++ Print.print_long (frametype info) ++
   " FST: " ++ Print.print_long (framesubtype info) ++
   " RSSI: " ++ Print.print_long (rssi info) ++
   " CH: " ++ Print.print_long (channel info) ++
   " SRC: " ++ source_hex (sourceaddr info))%string.

(** The probe-request marker closes the line of a frame of subtype 4. *)
Definition report_line (info : esppl_frame_info) : string :=
  (report_body info ++
   (if (framesubtype info =? 4)%Z then probe_marker else EmptyString))%string.

(** The last character of a text ([LF] for the empty one). *)
Definition last_char (s : string) : ascii := last (chars s) LF.

(** The events that one call of [cb] adds to the history. *)
Definition cb_events (info : esppl_frame_info) : list event :=
  if framesubtype info =? 8 then [] else
  if rssi info <? RSSI_THRESHOLD then [] else
  [ SerialWrite nl;
    SerialWrite "FT: "; SerialWrite (Print.print_long (frametype info));
    SerialWrite " FST: "; SerialWrite (Print.print_long (framesubtype info));
    SerialWrite " RSSI: "; SerialWrite (Print.print_long (rssi info));
    SerialWrite " CH: "; SerialWrite (Print.print_long (channel info));
    SerialWrite " SRC: " ]
  ++ map (fun i => SerialWrite (Print.printf_02x (nth i (sourceaddr info) x00)))
         (seq 0 6)
  ++ (if framesubtype info =? 4 then [SerialWrite probe_marker] else []).

(** ** The events of a scan cycle *)

(** One poll: the call, then what the callback writes for each frame. *)
Definition poll_events (fs : list esppl_frame_info) : list event :=
  ProcessFrames fs :: flat_map cb_events fs.

(** One drain: polls that deliver the given batches, then an empty poll. *)
Definition drain_events (batches : list (list esppl_frame_info))
  : list event :=
  flat_map poll_events batches ++ [ProcessFrames []].

(** One turn of the dwell loop: the clock check that lets it in, the drain
    and the yield. *)
Definition iteration_events (it : Z * list (list esppl_frame_info))
  : list event :=
  Millis (fst it) :: drain_events (snd it) ++ [Yield].

(** One dwell window, from the reading of [start] to the clock check that
    ends the loop. *)
Definition window_events (start : Z)
           (its : list (Z * list (list esppl_frame_info))) (t_end : Z)
  : list event :=
  Millis start :: flat_map iteration_events its ++ [Millis t_end].

(** [dwell_window cfg w]: [w] is a dwell window under [cfg]; every turn was
    entered within the dwell time and polled non-empty batches until an
    empty one, and the last clock check was outside the dwell time. *)
Definition dwell_window (cfg : config) (w : list event) : Prop :=
  exists start its t_end,
    w = window_events start its t_end /\
    Forall (fun it => within_dwell cfg start (fst it) = true /\
                      Forall (fun b => b <> []) (snd it)) its /\
    within_dwell cfg start t_end = false.

Definition visit_events (cw : Z * list event) : list event :=
  SetChannel (fst cw) :: snd cw.

(** [p] is an initial part of [w]. *)
Definition prefix_of (p w : list event) : Prop := exists q, w = p ++ q.

(** The events of a drain: polls and what the callback writes. *)
Definition drain_event (e : event) : bool :=
  match e with
  | ProcessFrames _ | SerialWrite _ => true
  | _ => false
  end.

(** ** Hosts under which the scan goes on *)

(** The traffic comes in bursts that end: some measure of the backlog goes
    down with every poll that delivers frames. *)
Definition bursts_end (env : host) : Prop :=
  exists backlog : history -> nat,
    forall h : history,
      inbox env h <> [] ->
      (backlog (h ++ poll_events (inbox env h)) < backlog h)%nat.

(** The clock moves on: some measure of the dwell time that is left goes
    down with every turn of the dwell loop, that is from a clock check
    within the dwell time to the yield after the drain. *)
Definition clock_moves_on (env : host) (cfg : config) : Prop :=
  exists remaining : Z -> history -> nat,
    forall (start : Z) (h h1 : history) (n : nat),
      within_dwell cfg start (to_ulong (clock env h)) = true ->
      drain env n (h ++ [Millis (to_ulong (clock env h))]) = Some (tt, h1) ->
      (remaining start (h1 ++ [Yield]) < remaining start h)%nat.

(** Further sample data *)

(** A frame of a subtype that no constant names. *)
Definition odd_frame : esppl_frame_info :=
  mk_frame_info 3 200 (-40) 4 [x01; x02; x03; x04; x05; x06].

(** A frame that differs from [probe_frame] in all but subtype and signal
    strength. *)
Definition probe_twin : esppl_frame_info :=
  mk_frame_info 1 4 (-55) 11 [x10; x20; x30; x40; x50; x60].

(** Runs under the sample host. *)
Definition sample_cycle : history :=
  Eval vm_compute in
    match loop sample_host 10 [] with
    | Some (_, h) => h
    | None => []
    end.

Definition sample_dwell : history :=
  Eval vm_compute in
    match dwell sample_host shipped 10 0 [] with
    | Some (_, h) => h
    | None => []
    end.

(** Configurations other than the shipped one. *)
Definition no_channels : config := mk_config [] DWELL_MS.
Definition no_dwell : config := mk_config channels 0.

(** Start-up validation as the specification asks for it, read on runs:
    under a configuration with no channel or with a dwell time that is not
    positive, no run of the sketch gets as far as the scan cycle, whose
    first act is to start the capture. *)
Definition rejects_bad_configuration : Prop :=
  forall (env : host) (cfg : config) (fuel n : nat) (h : history),
    cfg_channels cfg = [] \/ cfg_dwell cfg <= 0 ->
    sketch env cfg fuel n [] = Some (tt, h) ->
    ~ In SniffingStart h.

(** ** Further observers *)

Definition is_serial_write (e : event) : bool :=
  match e with SerialWrite _ => true | _ => false end.

Definition is_sniffing_start (e : event) : bool :=
  match e with SniffingStart => true | _ => false end.

(** The frames handed to the callback, in the order of delivery. *)
Fixpoint delivered (h : history) : list esppl_frame_info :=
  match h with
  | [] => []
  | ProcessFrames fs :: r => fs ++ delivered r
  | _ :: r => delivered r
  end.

(** A frame passes when it is no beacon and not below the threshold. *)
Definition passes (info : esppl_frame_info) : bool :=
  negb (framesubtype info =? 8) && negb (rssi info <? RSSI_THRESHOLD).

(** What the operator reads for one frame: nothing when it does not pass,
    a line feed and the report line when it does. *)
Definition report_text (info : esppl_frame_info) : string :=
  if passes info then (nl ++ report_line info)%string else EmptyString.

Fixpoint texts (fs : list esppl_frame_info) : string :=
  match fs with
  | [] => EmptyString
  | f :: r => (report_text f ++ texts r)%string
  end.

(** [tells tr]: what [tr] writes is what is to be read for the frames that
    [tr] delivers, in their order. *)
Definition tells (tr : list event) : Prop :=
  serial_output tr = texts (delivered tr).

(** The number of line feeds in a text. *)
Definition count_lf (s : string) : nat :=
  List.length (filter (fun c => Ascii.eqb c LF) (chars s)).

Definition has_no_space (s : string) : bool :=
  forallb (fun c => negb (Ascii.eqb c " ")) (chars s).

(** The events of a dwell window. *)
Definition window_event (e : event) : bool :=
  match e with
  | Millis _ | Yield | ProcessFrames _ | SerialWrite _ => true
  | _ => false
  end.

(** Two cycles under the sample host. *)
Definition sample_two_cycles : history :=
  Eval vm_compute in
    match sketch sample_host shipped 10 2 [] with
    | Some (_, h) => h
    | None => []
    end.

(** ** Start-up, and a host for every configuration *)

(** What [setup] adds to the history. *)
Definition startup_events : history :=
  [Delay 500; SerialBegin 115200; EspplInit;
   SerialWrite (banner ++ crlf)%string].

(** A quiet host whose clock advances by one millisecond at each
    reading. *)
Definition ticking_host : host :=
  mk_host (fun h => Z.of_nat (List.length (filter is_millis h)))
          (fun _ => []).

(** A configuration with a negative dwell time. *)
Definition negative_dwell : config := mk_config channels (-1).

(** * Properties *)

(** ** Strings *)

Module StringFacts.

Lemma append_assoc (a b c : string) :
  ((a ++ b) ++ c = a ++ (b ++ c))%string.
Proof. induction a as [|x r IH]; simpl; [reflexivity|now rewrite IH]. Qed.

Lemma append_empty_r (a : string) : (a ++ EmptyString)%string = a.
Proof. induction a as [|x r IH]; simpl; [reflexivity|now rewrite IH]. Qed.

Lemma length_append (a b : string) :
  String.length (a ++ b) = (String.length a + String.length b)%nat.
Proof. induction a as [|x r IH]; simpl; [reflexivity|now rewrite IH]. Qed.

Lemma substring_whole (b : string) :
  substring 0 (String.length b) b = b.
Proof. induction b as [|x r IH]; simpl; [reflexivity|now rewrite IH]. Qed.

(** Cutting a prefix off gives back what was appended. *)
Lemma substring_suffix (a b : string) :
  substring (String.length a)
            (String.length (a ++ b) - String.length a) (a ++ b) = b.
Proof.
  rewrite length_append.
  replace (String.length a + String.length b - String.length a)%nat
    with (String.length b) by lia.
  induction a as [|x r IH]; simpl; [apply substring_whole|exact IH].
Qed.

Lemma append_cancel_l (a b c : string) :
  (a ++ b = a ++ c)%string -> b = c.
Proof.
  induction a as [|x r IH]; simpl; intros H; [exact H|].
  injection H as H. now apply IH.
Qed.

End StringFacts.

(** ** Numerals *)

Module PrintFacts.
Import Print.

Lemma digit_cases (d : Z) :
  0 <= d < 10 ->
  d = 0 \/ d = 1 \/ d = 2 \/ d = 3 \/ d = 4 \/
  d = 5 \/ d = 6 \/ d = 7 \/ d = 8 \/ d = 9.
Proof. lia. Qed.

Lemma digit_value_char (d : Z) :
  0 <= d < 10 -> digit_value (digit_char d) = d.
Proof.
  intros H. destruct (digit_cases d H) as [E|[E|[E|[E|[E|[E|[E|[E|[E|E]]]]]]]]];
    subst d; reflexivity.
Qed.

Lemma digit_char_is_digit (d : Z) :
  0 <= d < 10 -> is_digit (digit_char d) = true.
Proof.
  intros H. destruct (digit_cases d H) as [E|[E|[E|[E|[E|[E|[E|[E|[E|E]]]]]]]]];
    subst d; reflexivity.
Qed.

Lemma printNumber_loop_acc (fuel : nat) :
  forall n str,
    printNumber_loop fuel n str
    = (printNumber_loop fuel n EmptyString ++ str)%string.
Proof.
  induction fuel as [|k IH]; intros n str; simpl.
  - reflexivity.
  - destruct (n / 10 =? 0).
    + reflexivity.
    + rewrite IH.
      rewrite (IH (n / 10) (String (digit_char (n mod 10)) EmptyString)).
      rewrite StringFacts.append_assoc. reflexivity.
Qed.

Lemma decimal_from_app (s1 : string) :
  forall acc s2,
    decimal_from acc (s1 ++ s2) = decimal_from (decimal_from acc s1) s2.
Proof.
  induction s1 as [|c r IH]; intros acc s2; simpl.
  - reflexivity.
  - apply IH.
Qed.

Lemma small_quotient (n : Z) (k : nat) :
  0 <= n -> Z.log2 n <= Z.of_nat (S k) -> n / 10 <> 0 ->
  0 <= n / 10 /\ Z.log2 (n / 10) <= Z.of_nat k.
Proof.
  intros Hn Hlog Hq.
  assert (Hq0 : 0 <= n / 10) by (apply Z.div_pos; lia).
  split; [exact Hq0|].
  assert (Hpos : 0 < n).
  { destruct (Z.eq_dec n 0) as [->|]; [now elim Hq|lia]. }
  assert (Hlt : n < 2 ^ (Z.of_nat k + 2)).
  { destruct (Z.log2_spec n Hpos) as [_ Hup].
    eapply Z.lt_le_trans; [exact Hup|].
    apply Z.pow_le_mono_r; lia. }
  assert (Hq1 : n / 10 < 2 ^ (Z.of_nat k + 1)).
  { apply Z.div_lt_upper_bound; [lia|].
    replace (Z.of_nat k + 2) with (Z.succ (Z.of_nat k + 1)) in Hlt by lia.
    rewrite Z.pow_succ_r in Hlt by lia.
    assert (0 < 2 ^ (Z.of_nat k + 1)) by (apply Z.pow_pos_nonneg; lia).
    lia. }
  assert (Z.log2 (n / 10) < Z.of_nat k + 1); [|lia].
  apply Z.log2_lt_pow2; lia.
Qed.

Lemma printNumber_loop_value (fuel : nat) :
  forall n,
    0 <= n -> Z.log2 n <= Z.of_nat fuel ->
    decimal_from 0 (printNumber_loop fuel n EmptyString) = n.
Proof.
  induction fuel as [|k IH]; intros n Hn Hlog.
  - assert (Hsmall : n < 10).
    { destruct (Z.eq_dec n 0) as [->|Hne]; [lia|].
      destruct (Z.log2_spec n ltac:(lia)) as [_ Hup].
      replace (Z.log2 n) with 0 in Hup
        by (pose proof (Z.log2_nonneg n); lia).
      simpl in Hup. lia. }
    simpl. rewrite digit_value_char by (apply Z.mod_pos_bound; lia).
    rewrite Z.mod_small; lia.
  - simpl. destruct (n / 10 =? 0) eqn:Eq.
    + apply Z.eqb_eq in Eq. simpl.
      rewrite digit_value_char by (apply Z.mod_pos_bound; lia).
      pose proof (Z.div_mod n 10 ltac:(lia)). lia.
    + apply Z.eqb_neq in Eq.
      destruct (small_quotient n k Hn Hlog Eq) as [Hq Hl].
      rewrite printNumber_loop_acc, decimal_from_app, (IH _ Hq Hl).
      cbn [decimal_from]. rewrite digit_value_char by (apply Z.mod_pos_bound; lia).
      pose proof (Z.div_mod n 10 ltac:(lia)). lia.
Qed.

Lemma printNumber_value (n : Z) :
  0 <= n -> decimal_from 0 (printNumber n) = n.
Proof.
  intros Hn. unfold printNumber. apply printNumber_loop_value; [exact Hn|].
  rewrite Z2Nat.id; [lia|apply Z.log2_nonneg].
Qed.

Lemma chars_app (s1 s2 : string) :
  chars (s1 ++ s2) = chars s1 ++ chars s2.
Proof.
  induction s1 as [|c r IH]; simpl; [reflexivity|].
  unfold chars in *. simpl. now rewrite IH.
Qed.

Lemma printNumber_loop_digits (fuel : nat) :
  forall n, 0 <= n ->
    forallb is_digit (chars (printNumber_loop fuel n EmptyString)) = true.
Proof.
  induction fuel as [|k IH]; intros n Hn; simpl.
  - rewrite digit_char_is_digit by (apply Z.mod_pos_bound; lia). reflexivity.
  - destruct (n / 10 =? 0).
    + simpl. rewrite digit_char_is_digit by (apply Z.mod_pos_bound; lia).
      reflexivity.
    + rewrite printNumber_loop_acc, chars_app, forallb_app.
      rewrite IH by (apply Z.div_pos; lia). simpl.
      rewrite digit_char_is_digit by (apply Z.mod_pos_bound; lia).
      reflexivity.
Qed.

Lemma printNumber_digits (n : Z) :
  0 <= n -> forallb is_digit (chars (printNumber n)) = true.
Proof. intros Hn. now apply printNumber_loop_digits. Qed.

Lemma is_digit_not_minus (c : ascii) :
  is_digit c = true -> Ascii.eqb c "-" = false.
Proof.
  intros H. destruct (Ascii.eqb_spec c "-"%char) as [->|]; [|reflexivity].
  discriminate H.
Qed.

(** The text of a number reads back, in base ten, as that number. *)
Lemma print_long_value (n : Z) : decimal_value (print_long n) = n.
Proof.
  unfold print_long. destruct (n <? 0) eqn:En.
  - apply Z.ltb_lt in En. simpl.
    rewrite printNumber_value by lia. lia.
  - apply Z.ltb_ge in En.
    pose proof (printNumber_value n En) as Hv.
    pose proof (printNumber_digits n En) as Hd.
    destruct (printNumber n) as [|c r] eqn:Es.
    + simpl in Hv. simpl. exact Hv.
    + unfold decimal_value. simpl in Hd. apply andb_prop in Hd.
      destruct Hd as [Hc _]. rewrite (is_digit_not_minus c Hc). exact Hv.
Qed.

End PrintFacts.

(** ** Hexadecimal bytes and line breaks *)

Module HexFacts.
Import Print.

Lemma printf_02x_value (b : byte) :
  hex_from 0 (printf_02x b) = Z.of_N (Byte.to_N b).
Proof. destruct b; reflexivity. Qed.

Lemma printf_02x_lower (b : byte) :
  forallb is_lower_hex (chars (printf_02x b)) = true.
Proof. destruct b; reflexivity. Qed.

Lemma printf_02x_length (b : byte) : String.length (printf_02x b) = 2%nat.
Proof. reflexivity. Qed.

Lemma printf_02x_one_line (b : byte) : one_line (printf_02x b) = true.
Proof. destruct b; reflexivity. Qed.

Lemma one_line_app (a b : string) :
  one_line (a ++ b) = one_line a && one_line b.
Proof. unfold one_line. now rewrite PrintFacts.chars_app, forallb_app. Qed.

Lemma digits_one_line (s : string) :
  forallb is_digit (chars s) = true -> one_line s = true.
Proof.
  unfold one_line. rewrite !forallb_forall. intros H c Hc.
  specialize (H c Hc). unfold is_line_break.
  destruct (Ascii.eqb_spec c LF) as [->|]; [discriminate H|].
  destruct (Ascii.eqb_spec c CR) as [->|]; [discriminate H|].
  reflexivity.
Qed.

Lemma print_long_one_line (n : Z) : one_line (print_long n) = true.
Proof.
  unfold print_long. destruct (n <? 0) eqn:En.
  - apply Z.ltb_lt in En.
    change (String "-"%char (printNumber (- n)))
      with (String "-"%char EmptyString ++ printNumber (- n))%string.
    rewrite one_line_app. simpl.
    apply digits_one_line, PrintFacts.printNumber_digits. lia.
  - apply Z.ltb_ge in En.
    apply digits_one_line, PrintFacts.printNumber_digits. exact En.
Qed.

End HexFacts.

(** ** What the callback adds *)

Module CbFacts.
Import StringFacts.

Lemma serial_output_app (h1 h2 : history) :
  serial_output (h1 ++ h2) = (serial_output h1 ++ serial_output h2)%string.
Proof.
  induction h1 as [|e r IH]; simpl; [reflexivity|].
  destruct e; try exact IH. rewrite IH. now rewrite append_assoc.
Qed.

(** [cb] always returns, and adds exactly [cb_events]. *)
Lemma cb_run (info : esppl_frame_info) (h : history) :
  cb info h = Some (tt, h ++ cb_events info).
Proof.
  unfold cb, cb_events.
  destruct (framesubtype info =? 8); [unfold ret; now rewrite app_nil_r|].
  destruct (rssi info <? RSSI_THRESHOLD);
    [unfold ret; now rewrite app_nil_r|].
  unfold Serial_print, Serial_print_int, Serial_printf_02x, emit, bind, ret.
  simpl.
  destruct (framesubtype info =? 4); simpl;
    repeat rewrite <- app_assoc; simpl; try rewrite app_nil_r; reflexivity.
Qed.

Lemma cb_events_output (info : esppl_frame_info) :
  serial_output (cb_events info)
  = if framesubtype info =? 8 then EmptyString
    else if rssi info <? RSSI_THRESHOLD then EmptyString
    else (nl ++ report_line info)%string.
Proof.
  unfold cb_events, report_line, report_body, source_hex.
  destruct (framesubtype info =? 8); [reflexivity|].
  destruct (rssi info <? RSSI_THRESHOLD); [reflexivity|].
  rewrite serial_output_app. cbn [serial_output].
  rewrite !append_empty_r, serial_output_app.
  rewrite !append_assoc. cbn [append].
  repeat (rewrite ?append_assoc; cbn [append]; f_equal).
  destruct (framesubtype info =? 4); simpl; reflexivity.
Qed.

(** What [cb] adds to the serial port, whatever was there before. *)
Lemma printed_cb (info : esppl_frame_info) (h : history) :
  printed (cb info) h = Some (serial_output (cb_events info)).
Proof.
  unfold printed. rewrite cb_run, serial_output_app.
  now rewrite substring_suffix.
Qed.

End CbFacts.

(** ** The frame classifier *)

Section Classifier.
Import StringFacts CbFacts.

Lemma nl_report_nonempty (s : string) : (nl ++ s)%string <> EmptyString.
Proof. discriminate. Qed.

Lemma printed_dropped_beacon (info : esppl_frame_info) (h : history) :
  framesubtype info = 8 -> printed (cb info) h = Some EmptyString.
Proof.
  intros H. rewrite printed_cb, cb_events_output, H. reflexivity.
Qed.

Lemma printed_dropped_weak (info : esppl_frame_info) (h : history) :
  rssi info < RSSI_THRESHOLD -> printed (cb info) h = Some EmptyString.
Proof.
  intros H. rewrite printed_cb, cb_events_output.
  destruct (framesubtype info =? 8); [reflexivity|].
  apply Z.ltb_lt in H. now rewrite H.
Qed.

Lemma printed_reported (info : esppl_frame_info) (h : history) :
  framesubtype info <> 8 -> RSSI_THRESHOLD <= rssi info ->
  printed (cb info) h = Some (nl ++ report_line info)%string.
Proof.
  intros H8 Hr. rewrite printed_cb, cb_events_output.
  apply Z.eqb_neq in H8. apply Z.ltb_ge in Hr. now rewrite H8, Hr.
Qed.

Lemma cb_events_reported (info : esppl_frame_info) :
  framesubtype info <> 8 -> RSSI_THRESHOLD <= rssi info ->
  cb_events info <> [].
Proof.
  intros H8 Hr. unfold cb_events.
  apply Z.eqb_neq in H8. apply Z.ltb_ge in Hr. rewrite H8, Hr.
  discriminate.
Qed.

Lemma cb_events_dropped (info : esppl_frame_info) :
  framesubtype info = 8 \/ rssi info < RSSI_THRESHOLD ->
  cb_events info = [].
Proof.
  intros [H|H]; unfold cb_events.
  - now rewrite H.
  - destruct (framesubtype info =? 8); [reflexivity|].
    apply Z.ltb_lt in H. now rewrite H.
Qed.

Lemma unchanged_iff_no_events (info : esppl_frame_info) (h : history) :
  cb info h = Some (tt, h) <-> cb_events info = [].
Proof.
  rewrite cb_run. split.
  - intros H. injection H as H.
    apply (app_inv_head h). now rewrite app_nil_r.
  - intros ->. now rewrite app_nil_r.
Qed.

Lemma last_app_cons {A : Type} (l : list A) (c : A) (r : list A) (d : A) :
  last (l ++ c :: r) d = last (c :: r) d.
Proof.
  induction l as [|x l IH]; [reflexivity|].
  rewrite <- IH. simpl.
  destruct (l ++ c :: r) eqn:E; [destruct l; discriminate E|reflexivity].
Qed.

Lemma last_char_app (a b : string) :
  b <> EmptyString -> last_char (a ++ b) = last_char b.
Proof.
  intros Hb. unfold last_char. rewrite PrintFacts.chars_app.
  destruct b as [|c r]; [now elim Hb|].
  apply (last_app_cons (chars a) c (chars r) LF).
Qed.

Lemma source_hex_bytes (addr : list byte) :
  source_hex addr
  = (Print.printf_02x (nth 0 addr x00) ++ Print.printf_02x (nth 1 addr x00) ++
     Print.printf_02x (nth 2 addr x00) ++ Print.printf_02x (nth 3 addr x00) ++
     Print.printf_02x (nth 4 addr x00) ++ Print.printf_02x (nth 5 addr x00)
    )%string.
Proof. reflexivity. Qed.

Lemma source_hex_last (addr : list byte) :
  Print.is_lower_hex (last_char (source_hex addr)) = true.
Proof.
  rewrite source_hex_bytes.
  rewrite !last_char_app by discriminate.
  destruct (nth 5 addr x00); reflexivity.
Qed.

Lemma source_hex_nonempty (addr : list byte) :
  source_hex addr <> EmptyString.
Proof. discriminate. Qed.

Lemma report_body_last (info : esppl_frame_info) :
  Print.is_lower_hex (last_char (report_body info)) = true.
Proof.
  unfold report_body.
  rewrite <- !append_assoc.
  rewrite last_char_app by apply source_hex_nonempty.
  apply source_hex_last.
Qed.

Lemma report_body_nonempty (info : esppl_frame_info) :
  report_body info <> EmptyString.
Proof. discriminate. Qed.

Lemma source_hex_six (addr : list byte) :
  List.length addr = 6%nat ->
  source_hex addr = String.concat EmptyString (map Print.printf_02x addr).
Proof.
  intros H.
  destruct addr as [|b0 [|b1 [|b2 [|b3 [|b4 [|b5 [|b6 r]]]]]]];
    try discriminate H.
  reflexivity.
Qed.

Lemma source_hex_length (addr : list byte) :
  String.length (source_hex addr) = 12%nat.
Proof. reflexivity. Qed.

Lemma source_hex_lower (addr : list byte) :
  forallb Print.is_lower_hex (chars (source_hex addr)) = true.
Proof.
  rewrite source_hex_bytes.
  rewrite !PrintFacts.chars_app, !forallb_app, !HexFacts.printf_02x_lower.
  reflexivity.
Qed.

Lemma source_hex_one_line (addr : list byte) :
  one_line (source_hex addr) = true.
Proof.
  rewrite source_hex_bytes.
  rewrite !HexFacts.one_line_app, !HexFacts.printf_02x_one_line.
  reflexivity.
Qed.

Lemma last_in (l : list ascii) (d : ascii) :
  l <> [] -> In (last l d) l.
Proof.
  induction l as [|x r IH]; intros H; [now elim H|].
  destruct r as [|y r']; [now left|].
  right. apply IH. discriminate.
Qed.

Lemma one_line_last (s : string) :
  s <> EmptyString -> one_line s = true ->
  is_line_break (last_char s) = false.
Proof.
  intros Hne Hl. unfold one_line in Hl. rewrite forallb_forall in Hl.
  apply negb_true_iff, Hl. apply last_in.
  destruct s; [now elim Hne|discriminate].
Qed.

Lemma report_line_one_line (info : esppl_frame_info) :
  one_line (report_line info) = true.
Proof.
  unfold report_line, report_body.
  rewrite !HexFacts.one_line_app, !HexFacts.print_long_one_line,
    source_hex_one_line.
  destruct (framesubtype info =? 4); reflexivity.
Qed.

Lemma silent_iff (info : esppl_frame_info) (h : history) :
  printed (cb info) h = Some EmptyString
  <-> framesubtype info = 8 \/ rssi info < RSSI_THRESHOLD.
Proof.
  split.
  - intros H.
    destruct (Z.eq_dec (framesubtype info) 8) as [E|E]; [now left|].
    destruct (Z_lt_le_dec (rssi info) RSSI_THRESHOLD) as [L|L]; [now right|].
    rewrite (printed_reported info h E L) in H. discriminate H.
  - intros [H|H].
    + now apply printed_dropped_beacon.
    + now apply printed_dropped_weak.
Qed.

Lemma cb_twice (f1 f2 : esppl_frame_info) (h : history) :
  (cb f1 ;; cb f2) h = Some (tt, h ++ cb_events f1 ++ cb_events f2).
Proof.
  unfold bind. rewrite cb_run, cb_run. now rewrite app_assoc.
Qed.

Lemma setup_run (h : history) :
  setup h
  = Some (tt, h ++ [Delay 500; SerialBegin 115200; EspplInit;
                    SerialWrite (banner ++ crlf)%string]).
Proof.
  unfold setup, Serial_println, emit, bind.
  repeat rewrite <- app_assoc. reflexivity.
Qed.

End Classifier.

(** C1.  A frame of subtype 8 (a beacon) is dropped at the first test: the
    callback returns at once, adds no event to the history and writes
    nothing, whatever the frame's type, signal strength, channel and source
    address are. *)
Theorem beacon_suppressed (info : esppl_frame_info) (h : history) :
  framesubtype info = 8 ->
  cb info h = Some (tt, h) /\ printed (cb info) h = Some EmptyString.
Proof.
  intros H. split.
  - apply unchanged_iff_no_events, cb_events_dropped. now left.
  - now apply printed_dropped_beacon.
Qed.

Lemma beacon_suppressed_witness :
  framesubtype beacon_frame = 8 /\
  cb beacon_frame [Yield] = Some (tt, [Yield]) /\
  printed (cb beacon_frame) [Yield] = Some EmptyString.
Proof.
  split; [reflexivity|].
  apply (beacon_suppressed beacon_frame [Yield]). reflexivity.
Defined.

(** C2.  A frame that is not a beacon is dropped (nothing is written, the
    history stays as it was) exactly when its signal strength is strictly
    below the threshold of -60; a frame at the threshold is reported. *)
Theorem rssi_gate (info : esppl_frame_info) (h : history) :
  framesubtype info <> 8 ->
  RSSI_THRESHOLD = -60 /\
  (printed (cb info) h = Some EmptyString <-> rssi info < RSSI_THRESHOLD) /\
  (cb info h = Some (tt, h) <-> rssi info < RSSI_THRESHOLD) /\
  (rssi info = RSSI_THRESHOLD ->
   printed (cb info) h = Some (nl ++ report_line info)%string).
Proof.
  intros H8. split; [reflexivity|]. split; [|split].
  - rewrite silent_iff. tauto.
  - rewrite unchanged_iff_no_events. split.
    + intros E.
      destruct (Z_lt_le_dec (rssi info) RSSI_THRESHOLD) as [L|L]; [exact L|].
      now elim (cb_events_reported info H8 L).
    + intros L. apply cb_events_dropped. now right.
  - intros E. apply printed_reported; [exact H8|lia].
Qed.

Lemma rssi_gate_witness :
  framesubtype weak_frame <> 8 /\
  framesubtype edge_frame <> 8 /\
  rssi weak_frame < RSSI_THRESHOLD /\
  rssi edge_frame = RSSI_THRESHOLD /\
  printed (cb weak_frame) [] = Some EmptyString /\
  printed (cb edge_frame) []
  = Some (nl ++ "FT: 2 FST: 0 RSSI: -60 CH: 11 SRC: 0a0b0c0d0e0f")%string.
Proof.
  assert (Hw : framesubtype weak_frame <> 8) by discriminate.
  assert (He : framesubtype edge_frame <> 8) by discriminate.
  assert (Lw : rssi weak_frame < RSSI_THRESHOLD) by reflexivity.
  assert (Le : rssi edge_frame = RSSI_THRESHOLD) by reflexivity.
  split; [exact Hw|]. split; [exact He|]. split; [exact Lw|].
  split; [exact Le|]. split.
  - exact (proj2 (proj1 (proj2 (rssi_gate weak_frame [] Hw))) Lw).
  - exact (proj2 (proj2 (proj2 (rssi_gate edge_frame [] He))) Le).
Defined.

(** C3.  For a frame that passes both filters the callback writes a line
    feed and then, in this order and each after its label, the frame type,
    the subtype, the signed signal strength and the channel as decimal
    numerals, and the six bytes of the source address as twelve lower-case
    hexadecimal digits, two per byte, zero padded, nothing in between;
    [ [PROBE]] follows for subtype 4.  The witness below is the scenario of
    the specification: type 0, subtype 4, rssi -55, channel 6 and address
    aa:bb:cc:dd:ee:ff. *)
Theorem report_format (info : esppl_frame_info) (h : history) :
  framesubtype info <> 8 ->
  RSSI_THRESHOLD <= rssi info ->
  List.length (sourceaddr info) = 6%nat ->
  let ft := Print.print_long (frametype info) in
  let fst := Print.print_long (framesubtype info) in
  let rs := Print.print_long (rssi info) in
  let ch := Print.print_long (channel info) in
  let src := String.concat EmptyString
               (map Print.printf_02x (sourceaddr info)) in
  printed (cb info) h
  = Some (nl ++ "FT: " ++ ft ++ " FST: " ++ fst ++ " RSSI: " ++ rs ++
          " CH: " ++ ch ++ " SRC: " ++ src ++
          (if (framesubtype info =? 4)%Z then " [PROBE]" else EmptyString)
         )%string
  /\ Print.decimal_value ft = frametype info
  /\ Print.decimal_value fst = framesubtype info
  /\ Print.decimal_value rs = rssi info
  /\ Print.decimal_value ch = channel info
  /\ String.length src = 12%nat
  /\ forallb Print.is_lower_hex (chars src) = true
  /\ map (fun b => Print.hex_from 0 (Print.printf_02x b)) (sourceaddr info)
     = map (fun b => Z.of_N (Byte.to_N b)) (sourceaddr info)
  /\ Forall (fun b => String.length (Print.printf_02x b) = 2%nat)
            (sourceaddr info).
Proof.
  intros H8 Hr Hlen ft fst rs ch src.
  assert (Hsrc : src = source_hex (sourceaddr info))
    by (symmetry; now apply source_hex_six).
  repeat split.
  - rewrite (printed_reported info h H8 Hr).
    unfold report_line, report_body. rewrite Hsrc.
    unfold ft, fst, rs, ch, probe_marker.
    repeat (rewrite ?StringFacts.append_assoc; cbn [append]; f_equal).
  - apply PrintFacts.print_long_value.
  - apply PrintFacts.print_long_value.
  - apply PrintFacts.print_long_value.
  - apply PrintFacts.print_long_value.
  - rewrite Hsrc. apply source_hex_length.
  - rewrite Hsrc. apply source_hex_lower.
  - apply map_ext. intros b. apply HexFacts.printf_02x_value.
  - apply Forall_forall. intros b _. reflexivity.
Qed.

Lemma report_format_witness :
  framesubtype probe_frame <> 8 /\
  RSSI_THRESHOLD <= rssi probe_frame /\
  List.length (sourceaddr probe_frame) = 6%nat /\
  printed (cb probe_frame) []
  = Some (nl ++ "FT: 0 FST: 4 RSSI: -55 CH: 6 SRC: aabbccddeeff [PROBE]")%string.
Proof.
  assert (H8 : framesubtype probe_frame <> 8) by discriminate.
  assert (Hr : RSSI_THRESHOLD <= rssi probe_frame) by discriminate.
  assert (Hl : List.length (sourceaddr probe_frame) = 6%nat) by reflexivity.
  split; [exact H8|]. split; [exact Hr|]. split; [exact Hl|].
  exact (proj1 (report_format probe_frame [] H8 Hr Hl)).
Defined.

(** C4.  The text written for a reported frame (subtype other than 8,
    signal strength at or above the threshold) ends with the probe-request
    marker if and only if the subtype is 4. *)
Theorem probe_marker_iff (info : esppl_frame_info) (h : history) :
  framesubtype info <> 8 ->
  RSSI_THRESHOLD <= rssi info ->
  exists out : string,
    printed (cb info) h = Some out /\
    (ends_with out " [PROBE]" <-> framesubtype info = 4).
Proof.
  intros H8 Hr. exists (nl ++ report_line info)%string.
  split; [now apply printed_reported|].
  unfold report_line. split.
  - intros [pre Hpre].
    destruct (framesubtype info =? 4) eqn:E4; [now apply Z.eqb_eq|].
    exfalso. rewrite StringFacts.append_empty_r in Hpre.
    pose proof (report_body_last info) as Hlast.
    rewrite <- (last_char_app nl _ (report_body_nonempty info)) in Hlast.
    rewrite Hpre, last_char_app in Hlast by discriminate.
    discriminate Hlast.
  - intros E4. rewrite E4. cbn [Z.eqb Pos.eqb].
    exists (nl ++ report_body info)%string.
    now rewrite StringFacts.append_assoc.
Qed.

Lemma probe_marker_iff_witness :
  framesubtype probe_frame <> 8 /\
  RSSI_THRESHOLD <= rssi probe_frame /\
  exists out : string,
    printed (cb probe_frame) [] = Some out /\
    (ends_with out " [PROBE]" <-> framesubtype probe_frame = 4).
Proof.
  assert (H8 : framesubtype probe_frame <> 8) by discriminate.
  assert (Hr : RSSI_THRESHOLD <= rssi probe_frame) by discriminate.
  split; [exact H8|]. split; [exact Hr|].
  exact (probe_marker_iff probe_frame [] H8 Hr).
Defined.

(** C7.  No subtype value makes the callback fail: a frame whose subtype is
    neither 8 nor 4 takes neither special case; the callback returns, and
    it writes nothing when the signal strength is below the threshold and
    the plain report line, without marker, otherwise. *)
Theorem unknown_subtype_total (info : esppl_frame_info) (h : history) :
  framesubtype info <> 8 ->
  framesubtype info <> 4 ->
  (exists h' : history, cb info h = Some (tt, h')) /\
  (rssi info < RSSI_THRESHOLD -> printed (cb info) h = Some EmptyString) /\
  (RSSI_THRESHOLD <= rssi info ->
   printed (cb info) h = Some (nl ++ report_body info)%string).
Proof.
  intros H8 H4. split; [|split].
  - exists (h ++ cb_events info). apply CbFacts.cb_run.
  - apply printed_dropped_weak.
  - intros Hr. rewrite (printed_reported info h H8 Hr). unfold report_line.
    apply Z.eqb_neq in H4. rewrite H4.
    now rewrite StringFacts.append_empty_r.
Qed.

Lemma unknown_subtype_total_witness :
  framesubtype odd_frame <> 8 /\
  framesubtype odd_frame <> 4 /\
  RSSI_THRESHOLD <= rssi odd_frame /\
  printed (cb odd_frame) []
  = Some (nl ++ "FT: 3 FST: 200 RSSI: -40 CH: 4 SRC: 010203040506")%string.
Proof.
  assert (H8 : framesubtype odd_frame <> 8) by discriminate.
  assert (H4 : framesubtype odd_frame <> 4) by discriminate.
  assert (Hr : RSSI_THRESHOLD <= rssi odd_frame) by discriminate.
  split; [exact H8|]. split; [exact H4|]. split; [exact Hr|].
  exact (proj2 (proj2 (unknown_subtype_total odd_frame [] H8 H4)) Hr).
Defined.

(** C9.  Whether a frame is dropped or reported depends on its subtype and
    signal strength only: two frames that agree on both are both dropped or
    both reported, whatever their types, channels and source addresses, and
    whatever has been written before. *)
Theorem decision_by_subtype_and_rssi
        (f1 f2 : esppl_frame_info) (h1 h2 : history) :
  framesubtype f1 = framesubtype f2 ->
  rssi f1 = rssi f2 ->
  (printed (cb f1) h1 = Some EmptyString
   <-> printed (cb f2) h2 = Some EmptyString) /\
  (cb f1 h1 = Some (tt, h1) <-> cb f2 h2 = Some (tt, h2)).
Proof.
  intros Es Er. split.
  - rewrite !silent_iff, Es, Er. tauto.
  - rewrite !unchanged_iff_no_events. unfold cb_events. rewrite Es, Er.
    destruct (framesubtype f2 =? 8); [tauto|].
    destruct (rssi f2 <? RSSI_THRESHOLD); [tauto|].
    split; discriminate.
Qed.

Lemma decision_by_subtype_and_rssi_witness :
  framesubtype probe_frame = framesubtype probe_twin /\
  rssi probe_frame = rssi probe_twin /\
  frametype probe_frame <> frametype probe_twin /\
  channel probe_frame <> channel probe_twin /\
  sourceaddr probe_frame <> sourceaddr probe_twin /\
  (printed (cb probe_frame) [] = Some EmptyString
   <-> printed (cb probe_twin) [Yield] = Some EmptyString).
Proof.
  assert (Es : framesubtype probe_frame = framesubtype probe_twin)
    by reflexivity.
  assert (Er : rssi probe_frame = rssi probe_twin) by reflexivity.
  split; [exact Es|]. split; [exact Er|].
  split; [discriminate|]. split; [discriminate|]. split; [discriminate|].
  exact (proj1 (decision_by_subtype_and_rssi
                  probe_frame probe_twin [] [Yield] Es Er)).
Defined.

(** C10.  The text written for a reported frame is one line feed followed
    by the report line, which starts with [FT: ], holds no line break and
    so does not end with one.  Two reports in a row are therefore separated
    by exactly the line feed that opens the second, and a report written
    right after the start-up announcement, which ends its own line, comes
    after an empty line. *)
Theorem report_framing (f1 f2 : esppl_frame_info) (h : history) :
  framesubtype f1 <> 8 -> RSSI_THRESHOLD <= rssi f1 ->
  framesubtype f2 <> 8 -> RSSI_THRESHOLD <= rssi f2 ->
  printed (cb f1) h = Some (nl ++ report_line f1)%string
  /\ (exists rest : string, report_line f1 = ("FT: " ++ rest)%string)
  /\ one_line (report_line f1) = true
  /\ is_line_break (last_char (nl ++ report_line f1)) = false
  /\ printed (cb f1 ;; cb f2) h
     = Some (nl ++ report_line f1 ++ nl ++ report_line f2)%string
  /\ (exists h0 : history,
        setup [] = Some (tt, h0) /\
        serial_output h0 = (banner ++ crlf)%string /\
        printed (setup ;; cb f1) []
        = Some (banner ++ crlf ++ nl ++ report_line f1)%string)
  /\ (forall h0 : history,
        serial_output h0 = (banner ++ crlf)%string ->
        exists h1 : history,
          cb f1 h0 = Some (tt, h1) /\
          serial_output h1
          = (banner ++ crlf ++ nl ++ report_line f1)%string).
Proof.
  intros H1 R1 H2 R2.
  pose proof (CbFacts.cb_events_output f1) as O1.
  pose proof (CbFacts.cb_events_output f2) as O2.
  apply Z.eqb_neq in H1, H2. apply Z.ltb_ge in R1, R2.
  rewrite H1, R1 in O1. rewrite H2, R2 in O2.
  split; [|split; [|split; [|split; [|split; [|split]]]]].
  - now rewrite CbFacts.printed_cb, O1.
  - unfold report_line, report_body. eexists.
    rewrite !StringFacts.append_assoc. reflexivity.
  - apply report_line_one_line.
  - assert (Hne : report_line f1 <> EmptyString).
    { unfold report_line, report_body. discriminate. }
    rewrite last_char_app by exact Hne.
    apply one_line_last; [exact Hne|apply report_line_one_line].
  - unfold printed. rewrite cb_twice.
    rewrite !CbFacts.serial_output_app, O1, O2.
    rewrite StringFacts.substring_suffix.
    now rewrite !StringFacts.append_assoc.
  - eexists. split; [apply setup_run|]. split; [reflexivity|].
    unfold printed, bind. rewrite setup_run, CbFacts.cb_run.
    rewrite CbFacts.serial_output_app, O1.
    cbn [serial_output app].
    rewrite StringFacts.append_empty_r.
    change (String.length EmptyString) with 0%nat.
    rewrite Nat.sub_0_r, StringFacts.substring_whole.
    now rewrite !StringFacts.append_assoc.
  - intros h0 E0. exists (h0 ++ cb_events f1).
    split; [apply CbFacts.cb_run|].
    rewrite CbFacts.serial_output_app, O1, E0.
    now rewrite !StringFacts.append_assoc.
Qed.

Lemma report_framing_witness :
  framesubtype probe_frame <> 8 /\ RSSI_THRESHOLD <= rssi probe_frame /\
  framesubtype edge_frame <> 8 /\ RSSI_THRESHOLD <= rssi edge_frame /\
  printed (cb probe_frame ;; cb edge_frame) []
  = Some (nl ++ "FT: 0 FST: 4 RSSI: -55 CH: 6 SRC: aabbccddeeff [PROBE]" ++
          nl ++ "FT: 2 FST: 0 RSSI: -60 CH: 11 SRC: 0a0b0c0d0e0f")%string.
Proof.
  assert (H1 : framesubtype probe_frame <> 8) by discriminate.
  assert (R1 : RSSI_THRESHOLD <= rssi probe_frame) by discriminate.
  assert (H2 : framesubtype edge_frame <> 8) by discriminate.
  assert (R2 : RSSI_THRESHOLD <= rssi edge_frame) by discriminate.
  split; [exact H1|]. split; [exact R1|]. split; [exact H2|].
  split; [exact R2|].
  exact (proj1 (proj2 (proj2 (proj2 (proj2
           (report_framing probe_frame edge_frame [] H1 R1 H2 R2)))))).
Defined.

(** ** The shape of a scan cycle *)

Module ScanFacts.

Section WithHost.
Variable env : host.

Lemma deliver_run (fs : list esppl_frame_info) :
  forall h, deliver cb fs h = Some (tt, h ++ flat_map cb_events fs).
Proof.
  induction fs as [|f r IH]; intros h; simpl.
  - unfold ret. now rewrite app_nil_r.
  - unfold bind. rewrite CbFacts.cb_run, IH. now rewrite app_assoc.
Qed.

Lemma esppl_process_frames_run (h : history) :
  esppl_process_frames env cb h
  = Some (negb (match inbox env h with [] => true | _ => false end),
          h ++ poll_events (inbox env h)).
Proof.
  unfold esppl_process_frames, bind, emit, ret, poll_events.
  rewrite deliver_run. now rewrite <- app_assoc.
Qed.

Lemma drain_shape (fuel : nat) :
  forall h h',
    drain env fuel h = Some (tt, h') ->
    exists batches,
      Forall (fun b => b <> []) batches /\
      h' = h ++ drain_events batches.
Proof.
  induction fuel as [|k IH]; intros h h' H; [discriminate H|].
  simpl in H. unfold bind in H. rewrite esppl_process_frames_run in H.
  destruct (inbox env h) as [|f fs] eqn:E.
  - injection H as <-. exists []. split; [constructor|reflexivity].
  - cbn [negb] in H. destruct (IH _ _ H) as (bs & Hbs & ->).
    exists ((f :: fs) :: bs). split.
    + constructor; [discriminate|exact Hbs].
    + unfold drain_events. cbn [flat_map].
      now rewrite <- !app_assoc.
Qed.

Variable cfg : config.

Lemma dwell_shape (fuel : nat) (start : Z) :
  forall h h',
    dwell env cfg fuel start h = Some (tt, h') ->
    exists its t_end,
      h' = h ++ flat_map iteration_events its ++ [Millis t_end] /\
      Forall (fun it => within_dwell cfg start (fst it) = true /\
                        Forall (fun b => b <> []) (snd it)) its /\
      within_dwell cfg start t_end = false.
Proof.
  induction fuel as [|k IH]; intros h h' H; [discriminate H|].
  simpl in H. unfold bind, millis in H.
  set (t := to_ulong (clock env h)) in H.
  destruct (within_dwell cfg start t) eqn:Ew.
  - destruct (drain env k (h ++ [Millis t])) as [[[] h1]|] eqn:Ed;
      [|discriminate H].
    destruct (drain_shape _ _ _ Ed) as (bs & Hbs & ->).
    unfold emit in H.
    destruct (IH _ _ H) as (its & t_end & -> & Hits & Hend).
    exists ((t, bs) :: its), t_end. split; [|split].
    + cbn [flat_map]. unfold iteration_events at 2. cbn [fst snd].
      repeat (rewrite <- ?app_assoc; cbn [app]). reflexivity.
    + constructor; [split; [exact Ew|exact Hbs]|exact Hits].
    + exact Hend.
  - injection H as <-. exists [], t. split; [reflexivity|].
    split; [constructor|exact Ew].
Qed.

Lemma visit_shape (fuel : nat) (i : nat) (h h' : history) :
  visit env cfg fuel i h = Some (tt, h') ->
  exists w,
    dwell_window cfg w /\
    h' = h ++ visit_events (nth i (cfg_channels cfg) 0, w).
Proof.
  unfold visit, bind, emit, millis. intros H.
  set (start := to_ulong (clock env (h ++ [SetChannel _]))) in H.
  destruct (dwell_shape _ _ _ _ H) as (its & t_end & -> & Hits & Hend).
  exists (window_events start its t_end). split.
  - exists start, its, t_end. auto.
  - unfold visit_events, window_events. cbn [fst snd].
    repeat (rewrite <- ?app_assoc; cbn [app]). reflexivity.
Qed.

Lemma skipn_nth (l : list Z) :
  forall i, (i < List.length l)%nat ->
            skipn i l = nth i l 0 :: skipn (S i) l.
Proof.
  induction l as [|x r IH]; intros i Hi; [simpl in Hi; lia|].
  destruct i as [|j]; [reflexivity|].
  simpl in Hi. cbn [skipn nth]. apply IH. lia.
Qed.

Lemma for_range_shape (fuel : nat) (count : nat) :
  forall lo h h',
    (lo + count <= List.length (cfg_channels cfg))%nat ->
    for_range lo count (visit env cfg fuel) h = Some (tt, h') ->
    exists ws,
      List.length ws = count /\
      Forall (dwell_window cfg) ws /\
      h' = h ++ flat_map visit_events
                  (combine (firstn count (skipn lo (cfg_channels cfg)))
                           ws).
Proof.
  induction count as [|r IH]; intros lo h h' Hle H.
  - injection H as <-. exists []. split; [reflexivity|].
    split; [constructor|]. simpl. now rewrite app_nil_r.
  - simpl in H. unfold bind in H.
    destruct (visit env cfg fuel lo h) as [[[] h1]|] eqn:Ev;
      [|discriminate H].
    destruct (visit_shape _ _ _ _ Ev) as (w & Hw & ->).
    assert (Hle' : (S lo + r <= List.length (cfg_channels cfg))%nat)
      by lia.
    destruct (IH (S lo) _ _ Hle' H) as (ws & Hlen & Hws & ->).
    exists (w :: ws). split; [simpl; now rewrite Hlen|].
    split; [now constructor|].
    rewrite (skipn_nth (cfg_channels cfg) lo) by lia.
    cbn [firstn combine flat_map]. now rewrite <- app_assoc.
Qed.

(** A cycle that ends has started the capture and then, for each
    configured channel in turn, activated it and dwelt on it. *)
Lemma scan_cycle_shape (fuel : nat) (h h' : history) :
  scan_cycle env cfg fuel h = Some (tt, h') ->
  exists ws,
    List.length ws = List.length (cfg_channels cfg) /\
    Forall (dwell_window cfg) ws /\
    h' = h ++ SniffingStart
           :: flat_map visit_events (combine (cfg_channels cfg) ws).
Proof.
  unfold scan_cycle, bind, emit. intros H.
  destruct (for_range_shape fuel (List.length (cfg_channels cfg)) 0%nat
                            _ _ (Nat.le_refl _) H)
    as (ws & Hlen & Hws & ->).
  exists ws. split; [exact Hlen|]. split; [exact Hws|].
  cbn [skipn]. rewrite firstn_all. now rewrite <- app_assoc.
Qed.

End WithHost.

End ScanFacts.

(** ** Which events a dwell window holds *)

Module ShapeFacts.

Lemma cb_events_drain (f : esppl_frame_info) :
  forallb drain_event (cb_events f) = true.
Proof.
  unfold cb_events.
  destruct (framesubtype f =? 8); [reflexivity|].
  destruct (rssi f <? RSSI_THRESHOLD); [reflexivity|].
  destruct (framesubtype f =? 4); reflexivity.
Qed.

Lemma poll_events_drain (fs : list esppl_frame_info) :
  forallb drain_event (poll_events fs) = true.
Proof.
  unfold poll_events. cbn [forallb drain_event andb].
  induction fs as [|f r IH]; [reflexivity|].
  cbn [flat_map]. now rewrite forallb_app, cb_events_drain, IH.
Qed.

Lemma drain_events_drain (bs : list (list esppl_frame_info)) :
  forallb drain_event (drain_events bs) = true.
Proof.
  unfold drain_events. rewrite forallb_app.
  replace (forallb drain_event [ProcessFrames []]) with true by reflexivity.
  rewrite andb_true_r.
  induction bs as [|b r IH]; [reflexivity|].
  cbn [flat_map]. now rewrite forallb_app, poll_events_drain, IH.
Qed.

Lemma filter_none (P Q : event -> bool) (l : list event) :
  (forall e, P e = true -> Q e = false) ->
  forallb P l = true -> filter Q l = [].
Proof.
  intros HPQ. induction l as [|e r IH]; [reflexivity|].
  cbn [forallb filter]. intros H. apply andb_prop in H as [He Hr].
  rewrite (HPQ e He). now apply IH.
Qed.

Lemma drain_events_no_yield (bs : list (list esppl_frame_info)) :
  filter is_yield (drain_events bs) = [].
Proof.
  apply (filter_none drain_event); [|apply drain_events_drain].
  intros [] H; try reflexivity; discriminate H.
Qed.

Lemma drain_events_no_millis (bs : list (list esppl_frame_info)) :
  filter is_millis (drain_events bs) = [].
Proof.
  apply (filter_none drain_event); [|apply drain_events_drain].
  intros [] H; try reflexivity; discriminate H.
Qed.

Lemma drain_events_last (bs : list (list esppl_frame_info)) :
  last (drain_events bs) Yield = ProcessFrames [].
Proof. unfold drain_events. apply last_last. Qed.

Lemma iteration_one_yield (it : Z * list (list esppl_frame_info)) :
  filter is_yield (iteration_events it) = [Yield].
Proof.
  unfold iteration_events. cbn [filter is_yield].
  now rewrite filter_app, drain_events_no_yield.
Qed.

Lemma iterations_yields (its : list (Z * list (list esppl_frame_info))) :
  List.length (filter is_yield (flat_map iteration_events its))
  = List.length its.
Proof.
  induction its as [|it r IH]; [reflexivity|].
  cbn [flat_map]. rewrite filter_app, iteration_one_yield, length_app, IH.
  reflexivity.
Qed.

Lemma activations_app (h1 h2 : history) :
  activations (h1 ++ h2) = activations h1 ++ activations h2.
Proof.
  induction h1 as [|e r IH]; [reflexivity|].
  destruct e; cbn [app activations]; try exact IH. now rewrite IH.
Qed.

Lemma activations_none (l : list event) :
  forallb (fun e => negb (is_set_channel e)) l = true ->
  activations l = [].
Proof.
  induction l as [|e r IH]; [reflexivity|].
  cbn [forallb]. intros H. apply andb_prop in H as [He Hr].
  destruct e; cbn [activations]; try now apply IH. discriminate He.
Qed.

Lemma forallb_weaken (P Q : event -> bool) (l : list event) :
  (forall e, P e = true -> Q e = true) ->
  forallb P l = true -> forallb Q l = true.
Proof.
  intros HPQ. rewrite !forallb_forall. auto.
Qed.

Lemma iteration_no_activation (it : Z * list (list esppl_frame_info)) :
  forallb (fun e => negb (is_set_channel e)) (iteration_events it) = true.
Proof.
  unfold iteration_events. cbn [forallb is_set_channel negb andb].
  rewrite forallb_app. cbn [forallb is_set_channel negb andb].
  rewrite andb_true_r.
  apply (forallb_weaken drain_event); [|apply drain_events_drain].
  intros [] H; try reflexivity; discriminate H.
Qed.

Lemma window_no_activation (start : Z)
      (its : list (Z * list (list esppl_frame_info))) (t_end : Z) :
  forallb (fun e => negb (is_set_channel e))
          (window_events start its t_end) = true.
Proof.
  unfold window_events. cbn [forallb is_set_channel negb andb].
  rewrite forallb_app. cbn [forallb is_set_channel negb andb].
  rewrite andb_true_r.
  induction its as [|it r IH]; [reflexivity|].
  cbn [flat_map]. now rewrite forallb_app, iteration_no_activation, IH.
Qed.

Lemma dwell_window_quiet (cfg : config) (w : list event) :
  dwell_window cfg w ->
  forallb (fun e => negb (is_set_channel e)) w = true.
Proof.
  intros (start & its & t_end & -> & _). apply window_no_activation.
Qed.

Lemma prefix_quiet (p w : list event) :
  prefix_of p w ->
  forallb (fun e => negb (is_set_channel e)) w = true ->
  activations p = [].
Proof.
  intros [q ->] H. rewrite forallb_app in H.
  apply andb_prop in H as [Hp _]. now apply activations_none.
Qed.

(** Once a channel is activated it stays the active one for as long as
    no other activation follows. *)
Lemma active_after_activation (h : history) (c : Z) (p : list event) :
  activations p = [] ->
  active_channel (h ++ SetChannel c :: p) = Some c.
Proof.
  intros Hp. unfold active_channel.
  rewrite activations_app. cbn [activations]. rewrite Hp.
  rewrite map_app. cbn [map]. apply last_last.
Qed.

End ShapeFacts.

(** ** Cycles that run to their end *)

Module EndFacts.

Section WithHost.
Variable env : host.

Lemma drain_more_fuel (n : nat) :
  forall m h r, (n <= m)%nat -> drain env n h = Some r -> drain env m h = Some r.
Proof.
  induction n as [|k IH]; intros m h r Hle H; [discriminate H|].
  destruct m as [|m']; [lia|].
  cbn [drain] in *. unfold bind in *.
  destruct (esppl_process_frames env cb h) as [[[] h1]|]; [|exact H|exact H].
  apply (IH m'); [lia|exact H].
Qed.

(** Under traffic whose bursts end, every drain ends. *)
Lemma drain_ends (Hb : bursts_end env) (h : history) :
  exists n h', drain env n h = Some (tt, h').
Proof.
  destruct Hb as [backlog Hb].
  remember (backlog h) as k eqn:Ek. revert h Ek.
  induction k as [k IH] using lt_wf_ind. intros h Ek.
  destruct (inbox env h) as [|f fs] eqn:E.
  - exists 1%nat, (h ++ poll_events []).
    cbn [drain]. unfold bind.
    rewrite ScanFacts.esppl_process_frames_run, E. reflexivity.
  - assert (Hlt : (backlog (h ++ poll_events (inbox env h)) < k)%nat).
    { subst k. apply Hb. rewrite E. discriminate. }
    destruct (IH _ Hlt _ eq_refl) as (n & h' & Hn).
    exists (S n), h'. cbn [drain]. unfold bind.
    rewrite ScanFacts.esppl_process_frames_run, E. cbn [negb].
    rewrite <- E. exact Hn.
Qed.

Variable cfg : config.

Lemma dwell_more_fuel (n : nat) (start : Z) :
  forall m h r,
    (n <= m)%nat ->
    dwell env cfg n start h = Some r -> dwell env cfg m start h = Some r.
Proof.
  induction n as [|k IH]; intros m h r Hle H; [discriminate H|].
  destruct m as [|m']; [lia|].
  cbn [dwell] in *. unfold bind in *.
  destruct (millis env h) as [[t h0]|]; [|exact H].
  destruct (within_dwell cfg start t); [|exact H].
  destruct (drain env k h0) as [[[] h1]|] eqn:Ed; [|discriminate H].
  rewrite (drain_more_fuel k m' h0 _ ltac:(lia) Ed).
  destruct (emit Yield h1) as [[[] h2]|]; [|exact H].
  apply (IH m'); [lia|exact H].
Qed.

(** If moreover the clock moves on, every dwell loop ends. *)
Lemma dwell_ends (Hb : bursts_end env) (Hc : clock_moves_on env cfg)
      (start : Z) (h : history) :
  exists n h', dwell env cfg n start h = Some (tt, h').
Proof.
  destruct Hc as [remaining Hc].
  remember (remaining start h) as k eqn:Ek. revert h Ek.
  induction k as [k IH] using lt_wf_ind. intros h Ek.
  destruct (within_dwell cfg start (to_ulong (clock env h))) eqn:Ew.
  - destruct (drain_ends Hb (h ++ [Millis (to_ulong (clock env h))]))
      as (n1 & h1 & Hd).
    assert (Hlt : (remaining start (h1 ++ [Yield]) < k)%nat).
    { subst k. exact (Hc start h h1 n1 Ew Hd). }
    destruct (IH _ Hlt _ eq_refl) as (n2 & h' & Hn2).
    exists (S (Nat.max n1 n2)), h'.
    cbn [dwell]. unfold bind, millis. rewrite Ew.
    rewrite (drain_more_fuel n1 _ _ _ (Nat.le_max_l n1 n2) Hd).
    unfold emit.
    exact (dwell_more_fuel n2 start _ _ _ (Nat.le_max_r n1 n2) Hn2).
  - exists 1%nat, (h ++ [Millis (to_ulong (clock env h))]).
    cbn [dwell]. unfold bind, millis. rewrite Ew. reflexivity.
Qed.

Lemma visit_more_fuel (n m i : nat) (h : history) (r : unit * history) :
  (n <= m)%nat ->
  visit env cfg n i h = Some r -> visit env cfg m i h = Some r.
Proof.
  unfold visit, bind, emit, millis. intros Hle H.
  exact (dwell_more_fuel n _ m _ r Hle H).
Qed.

Lemma for_range_more_fuel (count : nat) :
  forall n m lo h r,
    (n <= m)%nat ->
    for_range lo count (visit env cfg n) h = Some r ->
    for_range lo count (visit env cfg m) h = Some r.
Proof.
  induction count as [|c IH]; intros n m lo h r Hle H; [exact H|].
  cbn [for_range] in *. unfold bind in *.
  destruct (visit env cfg n lo h) as [[[] h1]|] eqn:Ev; [|discriminate H].
  rewrite (visit_more_fuel n m lo h _ Hle Ev).
  exact (IH n m _ _ _ Hle H).
Qed.

Lemma for_range_ends (Hb : bursts_end env) (Hc : clock_moves_on env cfg)
      (count : nat) :
  forall lo h,
  exists n h', for_range lo count (visit env cfg n) h = Some (tt, h').
Proof.
  induction count as [|c IH]; intros lo h.
  - exists 0%nat, h. reflexivity.
  - destruct (dwell_ends Hb Hc
                (to_ulong
                   (clock env
                      (h ++ [SetChannel (nth lo (cfg_channels cfg) 0)])))
                ((h ++ [SetChannel (nth lo (cfg_channels cfg) 0)])
                   ++ [Millis (to_ulong
                                 (clock env
                                    (h ++ [SetChannel
                                             (nth lo (cfg_channels cfg) 0)])))]))
      as (n1 & h1 & Hv).
    assert (Hvisit : visit env cfg n1 lo h = Some (tt, h1)).
    { unfold visit, bind, emit, millis. exact Hv. }
    destruct (IH (S lo) h1) as (n2 & h' & Hr).
    exists (Nat.max n1 n2), h'.
    cbn [for_range]. unfold bind.
    rewrite (visit_more_fuel n1 _ lo h _ (Nat.le_max_l n1 n2) Hvisit).
    exact (for_range_more_fuel c n2 _ _ _ _ (Nat.le_max_r n1 n2) Hr).
Qed.

(** Under such a host every scan cycle runs to its end. *)
Lemma scan_cycle_ends (Hb : bursts_end env) (Hc : clock_moves_on env cfg)
      (h : history) :
  exists n h', scan_cycle env cfg n h = Some (tt, h').
Proof.
  destruct (for_range_ends Hb Hc (List.length (cfg_channels cfg)) 0%nat
                           (h ++ [SniffingStart])) as (n & h' & H).
  exists n, h'. unfold scan_cycle, bind, emit. exact H.
Qed.

End WithHost.

(** The sample host is such a host. *)
Lemma sample_host_bursts_end : bursts_end sample_host.
Proof.
  exists (fun h => if existsb is_poll h then 0%nat else 1%nat).
  intros h Hne. cbn [inbox sample_host] in *.
  destruct (existsb is_poll h) eqn:E; [now elim Hne|].
  rewrite existsb_app. cbn [poll_events existsb is_poll].
  rewrite orb_true_r. lia.
Qed.

Lemma count_millis_turn (h : history) (t : Z)
      (bs : list (list esppl_frame_info)) :
  List.length (filter is_millis
                 (((h ++ [Millis t]) ++ drain_events bs) ++ [Yield]))
  = S (List.length (filter is_millis h)).
Proof.
  rewrite !filter_app, ShapeFacts.drain_events_no_millis.
  cbn [filter is_millis]. rewrite !length_app. cbn [List.length]. lia.
Qed.

Lemma ulong_step (a start : Z) :
  to_ulong (to_ulong a - start) < 250 ->
  to_ulong (to_ulong (a + 100) - start)
  = to_ulong (to_ulong a - start) + 100.
Proof.
  unfold to_ulong.
  assert (HM : ULONG_MOD = 4294967296) by reflexivity.
  rewrite !Zminus_mod_idemp_l. intros H.
  replace (a + 100 - start) with ((a - start) + 100) by lia.
  rewrite <- Zplus_mod_idemp_l.
  pose proof (Z.mod_pos_bound (a - start) ULONG_MOD ltac:(lia)) as B.
  apply Z.mod_small. lia.
Qed.

Lemma sample_host_clock_moves_on : clock_moves_on sample_host shipped.
Proof.
  exists (fun start h =>
            Z.to_nat (250 - to_ulong (to_ulong (clock sample_host h) - start))).
  intros start h h1 n Hw Hd.
  destruct (ScanFacts.drain_shape sample_host n _ _ Hd) as (bs & _ & ->).
  unfold within_dwell in Hw. apply Z.ltb_lt in Hw.
  change (to_ulong (cfg_dwell shipped)) with 250 in Hw.
  cbn [clock sample_host] in *.
  rewrite count_millis_turn, Nat2Z.inj_succ.
  replace (100 * Z.succ (Z.of_nat (List.length (filter is_millis h))))
    with (100 * Z.of_nat (List.length (filter is_millis h)) + 100) by lia.
  rewrite (ulong_step _ start Hw).
  pose proof (Z.mod_pos_bound
                (to_ulong (100 * Z.of_nat (List.length (filter is_millis h)))
                 - start) ULONG_MOD ltac:(reflexivity)) as B.
  fold (to_ulong (to_ulong (100 * Z.of_nat (List.length (filter is_millis h)))
                  - start)) in B.
  lia.
Qed.

End EndFacts.

(** ** The channel scheduler *)

(** C5.  A cycle of [loop] that runs to its end has started the capture and
    then activated the channels 1, 4, 6 and 11, each once and in this
    order, whatever the host's clock showed and whatever frames arrived.
    Each activation is followed by one dwell window, which holds no
    activation; so at every instant of a window the radio's active channel
    is the one activated at the start of that window.  And the cycle does
    run to its end under a host whose bursts of traffic end and whose
    clock moves on. *)
Theorem cycle_visits_channels_in_order (env : host) (h : history) :
  (bursts_end env -> clock_moves_on env shipped ->
   exists fuel h', loop env fuel h = Some (tt, h'))
  /\
  forall (fuel : nat) (h' : history),
  loop env fuel h = Some (tt, h') ->
  exists w1 w4 w6 w11 : list event,
    h' = h ++ SniffingStart :: SetChannel 1 :: w1 ++ SetChannel 4 :: w4 ++
                               SetChannel 6 :: w6 ++ SetChannel 11 :: w11
    /\ dwell_window shipped w1 /\ dwell_window shipped w4
    /\ dwell_window shipped w6 /\ dwell_window shipped w11
    /\ activations (SniffingStart :: SetChannel 1 :: w1 ++ SetChannel 4 :: w4 ++
                    SetChannel 6 :: w6 ++ SetChannel 11 :: w11)
       = [1; 4; 6; 11]
    /\ (forall p, prefix_of p w1 ->
          active_channel ((h ++ [SniffingStart]) ++ SetChannel 1 :: p)
          = Some 1)
    /\ (forall p, prefix_of p w4 ->
          active_channel ((h ++ SniffingStart :: SetChannel 1 :: w1)
                          ++ SetChannel 4 :: p) = Some 4)
    /\ (forall p, prefix_of p w6 ->
          active_channel ((h ++ SniffingStart :: SetChannel 1 :: w1 ++
                                SetChannel 4 :: w4)
                          ++ SetChannel 6 :: p) = Some 6)
    /\ (forall p, prefix_of p w11 ->
          active_channel ((h ++ SniffingStart :: SetChannel 1 :: w1 ++
                                SetChannel 4 :: w4 ++ SetChannel 6 :: w6)
                          ++ SetChannel 11 :: p) = Some 11).
Proof.
  split.
  { intros Hb Hc. exact (EndFacts.scan_cycle_ends env shipped Hb Hc h). }
  intros fuel h' H. unfold loop in H.
  destruct (ScanFacts.scan_cycle_shape env shipped fuel h h' H)
    as (ws & Hlen & Hws & ->).
  destruct ws as [|w1 [|w4 [|w6 [|w11 [|w r]]]]]; try discriminate Hlen.
  inversion Hws as [|? ? D1 Hws1]; subst.
  inversion Hws1 as [|? ? D4 Hws2]; subst.
  inversion Hws2 as [|? ? D6 Hws3]; subst.
  inversion Hws3 as [|? ? D11 _]; subst.
  pose proof (ShapeFacts.dwell_window_quiet _ _ D1) as Q1.
  pose proof (ShapeFacts.dwell_window_quiet _ _ D4) as Q4.
  pose proof (ShapeFacts.dwell_window_quiet _ _ D6) as Q6.
  pose proof (ShapeFacts.dwell_window_quiet _ _ D11) as Q11.
  exists w1, w4, w6, w11.
  split.
  { cbn [shipped cfg_channels channels combine flat_map visit_events fst snd
         app].
    rewrite app_nil_r. repeat (rewrite <- ?app_assoc; cbn [app]).
    reflexivity. }
  repeat (split; [assumption|]).
  split.
  { cbn [activations].
    repeat (rewrite ShapeFacts.activations_app; cbn [activations]).
    rewrite !ShapeFacts.activations_none by assumption. reflexivity. }
  repeat split; intros p Hp; apply ShapeFacts.active_after_activation;
    eapply ShapeFacts.prefix_quiet; eassumption.
Qed.

Lemma cycle_visits_channels_in_order_witness :
  bursts_end sample_host /\
  clock_moves_on sample_host shipped /\
  (exists fuel h', loop sample_host fuel [] = Some (tt, h')) /\
  loop sample_host 10 [] = Some (tt, sample_cycle) /\
  activations sample_cycle = [1; 4; 6; 11] /\
  exists w1 w4 w6 w11 : list event,
    sample_cycle
    = [] ++ SniffingStart :: SetChannel 1 :: w1 ++ SetChannel 4 :: w4 ++
                             SetChannel 6 :: w6 ++ SetChannel 11 :: w11.
Proof.
  assert (H : loop sample_host 10 [] = Some (tt, sample_cycle))
    by (vm_compute; reflexivity).
  split; [exact EndFacts.sample_host_bursts_end|].
  split; [exact EndFacts.sample_host_clock_moves_on|].
  split.
  { exact (proj1 (cycle_visits_channels_in_order sample_host [])
                 EndFacts.sample_host_bursts_end
                 EndFacts.sample_host_clock_moves_on). }
  split; [exact H|]. split; [vm_compute; reflexivity|].
  destruct (proj2 (cycle_visits_channels_in_order sample_host [])
                  10%nat sample_cycle H)
    as (w1 & w4 & w6 & w11 & E & _).
  exists w1, w4, w6, w11. exact E.
Defined.

(** C8.  A dwell loop that runs to its end is a sequence of turns followed
    by the clock check that ends it.  Each turn is: the clock check that
    lets it in, a drain (polls and what the callback writes, no yield and
    no clock reading, up to and including a poll that delivers nothing),
    and then one yield, right before the next clock check.  So every turn
    yields exactly once, whether its drain delivered no frame or many.  And
    the loop does run to its end under a host whose bursts of traffic end
    and whose clock moves on. *)
Theorem yield_once_per_dwell_iteration
        (env : host) (cfg : config) (start : Z) (h : history) :
  (bursts_end env -> clock_moves_on env cfg ->
   exists fuel h', dwell env cfg fuel start h = Some (tt, h'))
  /\
  forall (fuel : nat) (h' : history),
  dwell env cfg fuel start h = Some (tt, h') ->
  exists (its : list (Z * list (list esppl_frame_info))) (t_end : Z),
    h' = h ++ flat_map
                (fun it => Millis (fst it) :: drain_events (snd it) ++ [Yield])
                its
           ++ [Millis t_end]
    /\ Forall (fun it =>
                 within_dwell cfg start (fst it) = true
                 /\ filter is_yield (drain_events (snd it)) = []
                 /\ filter is_millis (drain_events (snd it)) = []
                 /\ last (drain_events (snd it)) Yield = ProcessFrames []
                 /\ filter is_yield (iteration_events it) = [Yield]) its
    /\ within_dwell cfg start t_end = false
    /\ List.length
         (filter is_yield (flat_map iteration_events its ++ [Millis t_end]))
       = List.length its.
Proof.
  split.
  { intros Hb Hc. exact (EndFacts.dwell_ends env cfg Hb Hc start h). }
  intros fuel h' H.
  destruct (ScanFacts.dwell_shape env cfg fuel start h h' H)
    as (its & t_end & -> & Hits & Hend).
  exists its, t_end. split; [reflexivity|]. split; [|split].
  - apply Forall_forall. intros it Hin.
    rewrite Forall_forall in Hits. destruct (Hits it Hin) as [Hw _].
    split; [exact Hw|].
    split; [apply ShapeFacts.drain_events_no_yield|].
    split; [apply ShapeFacts.drain_events_no_millis|].
    split; [apply ShapeFacts.drain_events_last|].
    apply ShapeFacts.iteration_one_yield.
  - exact Hend.
  - rewrite filter_app, length_app, ShapeFacts.iterations_yields.
    cbn [filter is_yield List.length]. lia.
Qed.

Lemma yield_once_per_dwell_iteration_witness :
  bursts_end sample_host /\
  clock_moves_on sample_host shipped /\
  (exists fuel h', dwell sample_host shipped fuel 0 [] = Some (tt, h')) /\
  dwell sample_host shipped 10 0 [] = Some (tt, sample_dwell) /\
  List.length (filter is_yield sample_dwell) = 3%nat /\
  exists (its : list (Z * list (list esppl_frame_info))) (t_end : Z),
    sample_dwell
    = [] ++ flat_map
              (fun it => Millis (fst it) :: drain_events (snd it) ++ [Yield])
              its
         ++ [Millis t_end].
Proof.
  assert (H : dwell sample_host shipped 10 0 [] = Some (tt, sample_dwell))
    by (vm_compute; reflexivity).
  split; [exact EndFacts.sample_host_bursts_end|].
  split; [exact EndFacts.sample_host_clock_moves_on|].
  split.
  { exact (proj1 (yield_once_per_dwell_iteration sample_host shipped 0 [])
                 EndFacts.sample_host_bursts_end
                 EndFacts.sample_host_clock_moves_on). }
  split; [exact H|]. split; [vm_compute; reflexivity|].
  destruct (proj2 (yield_once_per_dwell_iteration sample_host shipped 0 [])
                  10%nat sample_dwell H)
    as (its & t_end & E & _).
  exists its, t_end. exact E.
Defined.

(** ** Start-up and configuration *)

(** C6, as stated, fails: under a configuration with an empty channel list,
    and under one with a dwell time of zero, [setup] completes as ever and
    the scan cycle is entered and run. *)
Lemma configuration_not_checked :
  cfg_channels no_channels = [] /\
  sketch sample_host no_channels 5 1 []
  = Some (tt, [Delay 500; SerialBegin 115200; EspplInit;
               SerialWrite (banner ++ crlf)%string; SniffingStart]) /\
  cfg_dwell no_dwell <= 0 /\
  sketch sample_host no_dwell 5 1 []
  = Some (tt, [Delay 500; SerialBegin 115200; EspplInit;
               SerialWrite (banner ++ crlf)%string; SniffingStart;
               SetChannel 1; Millis 0; Millis 100;
               SetChannel 4; Millis 200; Millis 300;
               SetChannel 6; Millis 400; Millis 500;
               SetChannel 11; Millis 600; Millis 700]) /\
  ~ rejects_bad_configuration.
Proof.
  assert (H : sketch sample_host no_channels 5 1 []
              = Some (tt, [Delay 500; SerialBegin 115200; EspplInit;
                           SerialWrite (banner ++ crlf)%string;
                           SniffingStart]))
    by (vm_compute; reflexivity).
  split; [reflexivity|]. split; [exact H|].
  split; [discriminate|]. split; [vm_compute; reflexivity|].
  intros R. apply (R sample_host no_channels 5%nat 1%nat _ (or_introl eq_refl) H).
  cbn [In]. tauto.
Qed.

(** A run that has completed its first cycle began with the start-up and
    the start of the capture. *)
Lemma completed_run_entered
      (env : host) (cfg : config) (fuel n : nat) (h : history) :
  sketch env cfg fuel (S n) [] = Some (tt, h) ->
  exists rest : history,
    h = [Delay 500; SerialBegin 115200; EspplInit;
         SerialWrite (banner ++ crlf)%string; SniffingStart] ++ rest.
Proof.
  intros H.
  unfold sketch, bind in H. rewrite setup_run in H. cbn [app cycles] in H.
  unfold bind in H.
  destruct (scan_cycle env cfg fuel _) as [[[] h1]|] eqn:E; [|discriminate H].
  destruct (ScanFacts.scan_cycle_shape env cfg fuel _ _ E)
    as (ws & _ & _ & ->).
  clear E. revert H. generalize (flat_map visit_events
                                   (combine (cfg_channels cfg) ws)).
  intros l H.
  assert (Hgrow : forall m h0 h1,
             cycles env cfg fuel m h0 = Some (tt, h1) ->
             exists t, h1 = h0 ++ t).
  { clear. induction m as [|m IH]; intros h0 h1 H.
    - injection H as <-. exists []. now rewrite app_nil_r.
    - cbn [cycles] in H. unfold bind in H.
      destruct (scan_cycle env cfg fuel h0) as [[[] h2]|] eqn:E;
        [|discriminate H].
      destruct (ScanFacts.scan_cycle_shape env cfg fuel _ _ E)
        as (ws & _ & _ & ->).
      destruct (IH _ _ H) as [t ->]. eexists. now rewrite <- app_assoc. }
  destruct (Hgrow _ _ _ H) as [t ->].
  exists (l ++ t). cbn [app]. repeat (rewrite <- ?app_assoc; cbn [app]).
  reflexivity.
Qed.

(** * Further properties of the sketch *)

(** ** What a run writes and activates *)

Module RunFacts.

Lemma delivered_app (h1 h2 : history) :
  delivered (h1 ++ h2) = delivered h1 ++ delivered h2.
Proof.
  induction h1 as [|e r IH]; [reflexivity|].
  destruct e; cbn [app delivered]; try exact IH.
  now rewrite IH, app_assoc.
Qed.

Lemma texts_app (a b : list esppl_frame_info) :
  texts (a ++ b) = (texts a ++ texts b)%string.
Proof.
  induction a as [|f r IH]; [reflexivity|].
  cbn [app texts]. now rewrite IH, StringFacts.append_assoc.
Qed.

Lemma cb_events_text (f : esppl_frame_info) :
  serial_output (cb_events f) = report_text f.
Proof.
  rewrite CbFacts.cb_events_output. unfold report_text, passes.
  destruct (framesubtype f =? 8); [reflexivity|].
  destruct (rssi f <? RSSI_THRESHOLD); reflexivity.
Qed.

Lemma cb_events_only_write (f : esppl_frame_info) :
  forallb is_serial_write (cb_events f) = true.
Proof.
  unfold cb_events.
  destruct (framesubtype f =? 8); [reflexivity|].
  destruct (rssi f <? RSSI_THRESHOLD); [reflexivity|].
  destruct (framesubtype f =? 4); reflexivity.
Qed.

Lemma writes_deliver_nothing (l : list event) :
  forallb is_serial_write l = true -> delivered l = [].
Proof.
  induction l as [|e r IH]; [reflexivity|].
  cbn [forallb]. intros H. apply andb_prop in H as [He Hr].
  destruct e; try discriminate He. cbn [delivered]. now apply IH.
Qed.

Lemma writes_activate_nothing (l : list event) :
  forallb is_serial_write l = true -> activations l = [].
Proof.
  induction l as [|e r IH]; [reflexivity|].
  cbn [forallb]. intros H. apply andb_prop in H as [He Hr].
  destruct e; try discriminate He. cbn [activations]. now apply IH.
Qed.

Lemma tells_nil : tells [].
Proof. reflexivity. Qed.

Lemma tells_app (a b : list event) : tells a -> tells b -> tells (a ++ b).
Proof.
  unfold tells. intros Ha Hb.
  now rewrite CbFacts.serial_output_app, delivered_app, texts_app, Ha, Hb.
Qed.

Lemma tells_callbacks (fs : list esppl_frame_info) :
  serial_output (flat_map cb_events fs) = texts fs /\
  delivered (flat_map cb_events fs) = [].
Proof.
  induction fs as [|f r [IHs IHd]]; [split; reflexivity|].
  cbn [flat_map texts]. split.
  - now rewrite CbFacts.serial_output_app, cb_events_text, IHs.
  - rewrite delivered_app, IHd, app_nil_r.
    apply writes_deliver_nothing, cb_events_only_write.
Qed.

Lemma tells_poll (fs : list esppl_frame_info) : tells (poll_events fs).
Proof.
  unfold tells, poll_events. cbn [serial_output delivered].
  destruct (tells_callbacks fs) as [Hs Hd].
  now rewrite Hs, Hd, app_nil_r.
Qed.

Lemma tells_drain (bs : list (list esppl_frame_info)) :
  tells (drain_events bs).
Proof.
  unfold drain_events. apply tells_app; [|reflexivity].
  induction bs as [|b r IH]; [exact tells_nil|].
  cbn [flat_map]. apply tells_app; [apply tells_poll|exact IH].
Qed.

Lemma tells_iteration (it : Z * list (list esppl_frame_info)) :
  tells (iteration_events it).
Proof.
  unfold iteration_events.
  change (Millis (fst it) :: drain_events (snd it) ++ [Yield])
    with ([Millis (fst it)] ++ drain_events (snd it) ++ [Yield]).
  apply tells_app; [reflexivity|].
  apply tells_app; [apply tells_drain|reflexivity].
Qed.

Lemma tells_window (start : Z)
      (its : list (Z * list (list esppl_frame_info))) (t_end : Z) :
  tells (window_events start its t_end).
Proof.
  unfold window_events.
  change (Millis start :: flat_map iteration_events its ++ [Millis t_end])
    with ([Millis start] ++ flat_map iteration_events its ++ [Millis t_end]).
  apply tells_app; [reflexivity|].
  apply tells_app; [|reflexivity].
  induction its as [|it r IH]; [exact tells_nil|].
  cbn [flat_map]. apply tells_app; [apply tells_iteration|exact IH].
Qed.

Lemma window_events_kind (start : Z)
      (its : list (Z * list (list esppl_frame_info))) (t_end : Z) :
  forallb window_event (window_events start its t_end) = true.
Proof.
  unfold window_events. cbn [forallb window_event andb].
  rewrite forallb_app. cbn [forallb window_event andb]. rewrite andb_true_r.
  induction its as [|it r IH]; [reflexivity|].
  cbn [flat_map]. rewrite forallb_app, IH, andb_true_r.
  unfold iteration_events. cbn [forallb window_event andb].
  rewrite forallb_app. cbn [forallb window_event andb]. rewrite andb_true_r.
  apply (ShapeFacts.forallb_weaken drain_event);
    [|apply ShapeFacts.drain_events_drain].
  intros [] H; try reflexivity; discriminate H.
Qed.

Lemma window_no_sniffing_start (cfg : config) (w : list event) :
  dwell_window cfg w -> filter is_sniffing_start w = [].
Proof.
  intros (start & its & t_end & -> & _).
  apply (ShapeFacts.filter_none window_event);
    [|apply window_events_kind].
  intros [] H; try reflexivity; discriminate H.
Qed.

Lemma dwell_window_tells (cfg : config) (w : list event) :
  dwell_window cfg w -> tells w.
Proof. intros (start & its & t_end & -> & _). apply tells_window. Qed.

(** The visits of one cycle: they tell, they activate the channels given
    and they do not start the capture. *)
Lemma visits_summary (cfg : config) (chans : list Z) :
  forall ws : list (list event),
    List.length ws = List.length chans ->
    Forall (dwell_window cfg) ws ->
    tells (flat_map visit_events (combine chans ws)) /\
    activations (flat_map visit_events (combine chans ws)) = chans /\
    filter is_sniffing_start (flat_map visit_events (combine chans ws)) = [].
Proof.
  induction chans as [|c r IH]; intros ws Hlen Hws.
  - repeat split.
  - destruct ws as [|w ws']; [discriminate Hlen|].
    inversion Hws as [|? ? Hw Hws']; subst.
    destruct (IH ws' ltac:(simpl in Hlen; lia) Hws') as (It & Ia & Is).
    cbn [combine flat_map visit_events fst snd app].
    split; [|split].
    + apply (tells_app [SetChannel c]); [reflexivity|].
      apply tells_app; [exact (dwell_window_tells cfg w Hw)|exact It].
    + cbn [activations]. rewrite ShapeFacts.activations_app.
      rewrite (ShapeFacts.activations_none w)
        by exact (ShapeFacts.dwell_window_quiet cfg w Hw).
      now rewrite Ia.
    + cbn [filter is_sniffing_start]. rewrite filter_app.
      now rewrite (window_no_sniffing_start cfg w Hw), Is.
Qed.

Section WithHost.
Variable env : host.
Variable cfg : config.

Lemma scan_cycle_summary (fuel : nat) (h h' : history) :
  scan_cycle env cfg fuel h = Some (tt, h') ->
  exists tr,
    h' = h ++ tr /\ tells tr /\
    activations tr = cfg_channels cfg /\
    filter is_sniffing_start tr = [SniffingStart].
Proof.
  intros H.
  destruct (ScanFacts.scan_cycle_shape env cfg fuel h h' H)
    as (ws & Hlen & Hws & ->).
  destruct (visits_summary cfg (cfg_channels cfg) ws Hlen Hws)
    as (Ht & Ha & Hs).
  eexists. split; [reflexivity|]. split; [|split].
  - apply (tells_app [SniffingStart]); [reflexivity|exact Ht].
  - cbn [activations]. exact Ha.
  - cbn [filter is_sniffing_start]. now rewrite Hs.
Qed.

Lemma cycles_summary (fuel : nat) (n : nat) :
  forall h h',
    cycles env cfg fuel n h = Some (tt, h') ->
    exists tr,
      h' = h ++ tr /\ tells tr /\
      activations tr = List.concat (repeat (cfg_channels cfg) n) /\
      filter is_sniffing_start tr = repeat SniffingStart n.
Proof.
  induction n as [|m IH]; intros h h' H.
  - injection H as <-. exists []. rewrite app_nil_r. repeat split.
  - cbn [cycles] in H. unfold bind in H.
    destruct (scan_cycle env cfg fuel h) as [[[] h1]|] eqn:E;
      [|discriminate H].
    destruct (scan_cycle_summary fuel h h1 E) as (t1 & -> & T1 & A1 & S1).
    destruct (IH _ _ H) as (t2 & -> & T2 & A2 & S2).
    exists (t1 ++ t2). split; [now rewrite app_assoc|].
    split; [now apply tells_app|]. split.
    + rewrite ShapeFacts.activations_app, A1, A2. reflexivity.
    + rewrite filter_app, S1, S2. reflexivity.
Qed.

Lemma sketch_summary (fuel : nat) (n : nat) (h : history) :
  sketch env cfg fuel n [] = Some (tt, h) ->
  exists tr,
    h = [Delay 500; SerialBegin 115200; EspplInit;
         SerialWrite (banner ++ crlf)%string] ++ tr /\
    tells tr /\
    activations tr = List.concat (repeat (cfg_channels cfg) n) /\
    filter is_sniffing_start tr = repeat SniffingStart n.
Proof.
  unfold sketch, bind. rewrite setup_run. cbn [app]. intros H.
  destruct (cycles_summary fuel n _ _ H) as (tr & -> & Ht & Ha & Hs).
  exists tr. repeat split; assumption.
Qed.

End WithHost.

End RunFacts.

(** ** Reading a report back *)

Module ReadFacts.

Lemma count_lf_app (a b : string) :
  count_lf (a ++ b) = (count_lf a + count_lf b)%nat.
Proof.
  unfold count_lf. now rewrite PrintFacts.chars_app, filter_app, length_app.
Qed.

Lemma one_line_no_lf (s : string) : one_line s = true -> count_lf s = 0%nat.
Proof.
  unfold one_line, count_lf. induction (chars s) as [|c r IH];
    [reflexivity|].
  cbn [forallb filter]. intros H. apply andb_prop in H as [Hc Hr].
  unfold is_line_break in Hc. apply negb_true_iff, orb_false_elim in Hc.
  destruct Hc as [Hc _]. rewrite Hc. now apply IH.
Qed.

Lemma count_lf_report_text (f : esppl_frame_info) :
  count_lf (report_text f) = if passes f then 1%nat else 0%nat.
Proof.
  unfold report_text. destruct (passes f); [|reflexivity].
  rewrite count_lf_app, (one_line_no_lf _ (report_line_one_line f)).
  reflexivity.
Qed.

Lemma count_lf_texts (fs : list esppl_frame_info) :
  count_lf (texts fs) = List.length (filter passes fs).
Proof.
  induction fs as [|f r IH]; [reflexivity|].
  cbn [texts filter]. rewrite count_lf_app, count_lf_report_text, IH.
  destruct (passes f); reflexivity.
Qed.

Lemma has_no_space_cons (c : ascii) (s : string) :
  has_no_space (String c s) = negb (Ascii.eqb c " ") && has_no_space s.
Proof. reflexivity. Qed.

(** Two texts without a space that are followed by a space end at the same
    place. *)
Lemma split_at_space (s1 : string) :
  forall s2 r1 r2,
    has_no_space s1 = true -> has_no_space s2 = true ->
    (s1 ++ String " " r1)%string = (s2 ++ String " " r2)%string ->
    s1 = s2 /\ r1 = r2.
Proof.
  induction s1 as [|c s1' IH]; intros s2 r1 r2 N1 N2 H.
  - destruct s2 as [|d s2']; cbn [append] in H.
    + injection H as H. now split.
    + injection H as Hc _. subst d.
      rewrite has_no_space_cons in N2. discriminate N2.
  - destruct s2 as [|d s2']; cbn [append] in H.
    + injection H as Hc _. subst c.
      rewrite has_no_space_cons in N1. discriminate N1.
    + injection H as Hc H. subst d.
      rewrite has_no_space_cons in N1, N2.
      apply andb_prop in N1 as [_ N1]. apply andb_prop in N2 as [_ N2].
      destruct (IH _ _ _ N1 N2 H) as [-> ->]. now split.
Qed.

Lemma digits_no_space (s : string) :
  forallb Print.is_digit (chars s) = true -> has_no_space s = true.
Proof.
  unfold has_no_space. rewrite !forallb_forall. intros H c Hc.
  specialize (H c Hc).
  destruct (Ascii.eqb_spec c " "%char) as [->|]; [discriminate H|].
  reflexivity.
Qed.

Lemma print_long_no_space (n : Z) :
  has_no_space (Print.print_long n) = true.
Proof.
  unfold Print.print_long. destruct (n <? 0) eqn:En.
  - apply Z.ltb_lt in En. rewrite has_no_space_cons. cbn [negb Ascii.eqb].
    apply digits_no_space, PrintFacts.printNumber_digits. lia.
  - apply Z.ltb_ge in En.
    apply digits_no_space, PrintFacts.printNumber_digits. exact En.
Qed.

Lemma print_long_injective (a b : Z) :
  Print.print_long a = Print.print_long b -> a = b.
Proof.
  intros H. rewrite <- (PrintFacts.print_long_value a), H.
  apply PrintFacts.print_long_value.
Qed.

Lemma printf_02x_injective (a b : byte) :
  Print.printf_02x a = Print.printf_02x b -> a = b.
Proof.
  intros H.
  assert (E : Byte.to_N a = Byte.to_N b).
  { apply N2Z.inj. rewrite <- !HexFacts.printf_02x_value. now rewrite H. }
  assert (S : Some a = Some b).
  { rewrite <- (Byte.of_to_N a), <- (Byte.of_to_N b). now rewrite E. }
  now injection S.
Qed.

Lemma append_same_length (a1 : string) :
  forall a2 b1 b2,
    String.length a1 = String.length a2 ->
    (a1 ++ b1)%string = (a2 ++ b2)%string -> a1 = a2 /\ b1 = b2.
Proof.
  induction a1 as [|c r IH]; intros a2 b1 b2 Hl H;
    destruct a2 as [|d r2]; try discriminate Hl.
  - now split.
  - cbn [append] in H. injection H as -> H. injection Hl as Hl.
    destruct (IH _ _ _ Hl H) as [-> ->]. now split.
Qed.

Lemma source_hex_injective (a1 a2 : list byte) :
  List.length a1 = 6%nat -> List.length a2 = 6%nat ->
  source_hex a1 = source_hex a2 -> a1 = a2.
Proof.
  intros L1 L2 H.
  destruct a1 as [|x0 [|x1 [|x2 [|x3 [|x4 [|x5 [|x6 r]]]]]]];
    try discriminate L1.
  destruct a2 as [|y0 [|y1 [|y2 [|y3 [|y4 [|y5 [|y6 r]]]]]]];
    try discriminate L2.
  rewrite !source_hex_bytes in H. cbn [nth] in H.
  apply append_same_length in H as [H0 H]; [|reflexivity].
  apply append_same_length in H as [H1 H]; [|reflexivity].
  apply append_same_length in H as [H2 H]; [|reflexivity].
  apply append_same_length in H as [H3 H]; [|reflexivity].
  apply append_same_length in H as [H4 H]; [|reflexivity].
  apply printf_02x_injective in H0, H1, H2, H3, H4, H.
  now subst.
Qed.

(** The report line of a frame with a six-byte address tells all the
    fields that the callback reads. *)
Lemma report_line_injective (f1 f2 : esppl_frame_info) :
  List.length (sourceaddr f1) = 6%nat ->
  List.length (sourceaddr f2) = 6%nat ->
  report_line f1 = report_line f2 -> f1 = f2.
Proof.
  intros L1 L2 H. unfold report_line, report_body in H.
  rewrite !StringFacts.append_assoc in H. cbn [append] in H.
  remember (source_hex (sourceaddr f1) ++ _)%string as t1 eqn:E1 in H.
  remember (source_hex (sourceaddr f2) ++ _)%string as t2 eqn:E2 in H.
  injection H as H.
  apply split_at_space in H as [Hft H]; try apply print_long_no_space.
  injection H as H.
  apply split_at_space in H as [Hfst H]; try apply print_long_no_space.
  injection H as H.
  apply split_at_space in H as [Hrs H]; try apply print_long_no_space.
  injection H as H.
  apply split_at_space in H as [Hch H]; try apply print_long_no_space.
  injection H as H. subst t1 t2.
  apply append_same_length in H as [Hsrc _];
    [|now rewrite !source_hex_length].
  apply print_long_injective in Hft, Hfst, Hrs, Hch.
  apply (source_hex_injective _ _ L1 L2) in Hsrc.
  destruct f1, f2. cbn in *. now subst.
Qed.

End ReadFacts.

(** ** The dwell test, the round of the channels and the operator's view *)

Lemma passes_true (f : esppl_frame_info) :
  passes f = true -> framesubtype f <> 8 /\ RSSI_THRESHOLD <= rssi f.
Proof.
  unfold passes. intros H. apply andb_prop in H as [H8 Hr].
  apply negb_true_iff in H8, Hr.
  apply Z.eqb_neq in H8. apply Z.ltb_ge in Hr. now split.
Qed.

Lemma printed_report_text (f : esppl_frame_info) (h : history) :
  printed (cb f) h = Some (report_text f).
Proof. now rewrite CbFacts.printed_cb, RunFacts.cb_events_text. Qed.

(** X1.  The dwell test [millis() - start < 250] is right across the wrap
    of the 32-bit millisecond clock: when [d] milliseconds (fewer than
    2^32) have gone by since [start] was read, the test holds exactly when
    [d] is below the dwell time, whether or not the clock has wrapped in
    between. *)
Theorem dwell_test_across_wrap (cfg : config) (start d : Z) :
  0 <= d < ULONG_MOD ->
  0 <= cfg_dwell cfg < ULONG_MOD ->
  within_dwell cfg start (to_ulong (start + d)) = (d <? cfg_dwell cfg).
Proof.
  intros Hd Hc. unfold within_dwell, to_ulong.
  rewrite Zminus_mod_idemp_l.
  replace (start + d - start) with d by lia.
  now rewrite !Z.mod_small.
Qed.

Lemma dwell_test_across_wrap_witness :
  0 <= 150 < ULONG_MOD /\
  0 <= cfg_dwell shipped < ULONG_MOD /\
  to_ulong (4294967196 + 150) = 50 /\
  within_dwell shipped 4294967196 50 = true /\
  within_dwell shipped 4294967196 (to_ulong (4294967196 + 250)) = false.
Proof.
  assert (H1 : 0 <= 150 < ULONG_MOD) by (split; [discriminate|reflexivity]).
  assert (H2 : 0 <= 250 < ULONG_MOD) by (split; [discriminate|reflexivity]).
  assert (H3 : 0 <= cfg_dwell shipped < ULONG_MOD)
    by (split; [discriminate|reflexivity]).
  split; [exact H1|]. split; [exact H3|]. split; [reflexivity|].
  split.
  - exact (dwell_test_across_wrap shipped 4294967196 150 H1 H3).
  - exact (dwell_test_across_wrap shipped 4294967196 250 H2 H3).
Defined.

(** X2.  The channels go round: a run of the sketch through [n] cycles has
    activated the configured channels [n] times over, each time in the
    configured order, and has started the capture once per cycle, whatever
    the clock showed and whatever frames arrived. *)
Theorem channels_go_round
        (env : host) (cfg : config) (fuel n : nat) (h : history) :
  sketch env cfg fuel n [] = Some (tt, h) ->
  activations h = List.concat (repeat (cfg_channels cfg) n) /\
  filter is_sniffing_start h = repeat SniffingStart n.
Proof.
  intros H.
  destruct (RunFacts.sketch_summary env cfg fuel n h H)
    as (tr & -> & _ & Ha & Hs).
  split.
  - rewrite ShapeFacts.activations_app. exact Ha.
  - rewrite filter_app. exact Hs.
Qed.

Lemma channels_go_round_witness :
  sketch sample_host shipped 10 2 [] = Some (tt, sample_two_cycles) /\
  activations sample_two_cycles = [1; 4; 6; 11; 1; 4; 6; 11] /\
  filter is_sniffing_start sample_two_cycles = [SniffingStart; SniffingStart].
Proof.
  assert (H : sketch sample_host shipped 10 2 []
              = Some (tt, sample_two_cycles)) by (vm_compute; reflexivity).
  split; [exact H|].
  exact (channels_go_round sample_host shipped 10 2 sample_two_cycles H).
Defined.

(** X3.  All that the operator reads after a run of the sketch is the
    announcement, with its line end, followed by the text of each frame
    that was handed to the callback, in the order of delivery: nothing for
    a frame that does not pass, a line feed and the report line for one
    that does.  The scheduler writes nothing of its own. *)
Theorem operator_reads_reports_in_order
        (env : host) (cfg : config) (fuel n : nat) (h : history) :
  sketch env cfg fuel n [] = Some (tt, h) ->
  serial_output h = (banner ++ crlf ++ texts (delivered h))%string.
Proof.
  intros H.
  destruct (RunFacts.sketch_summary env cfg fuel n h H)
    as (tr & -> & Ht & _).
  rewrite CbFacts.serial_output_app, RunFacts.delivered_app.
  cbn [serial_output delivered app]. rewrite Ht.
  now rewrite StringFacts.append_empty_r, StringFacts.append_assoc.
Qed.

Lemma operator_reads_reports_in_order_witness :
  sketch sample_host shipped 10 2 [] = Some (tt, sample_two_cycles) /\
  delivered sample_two_cycles = [probe_frame; beacon_frame; edge_frame] /\
  serial_output sample_two_cycles
  = (banner ++ crlf ++
     nl ++ "FT: 0 FST: 4 RSSI: -55 CH: 6 SRC: aabbccddeeff [PROBE]" ++
     nl ++ "FT: 2 FST: 0 RSSI: -60 CH: 11 SRC: 0a0b0c0d0e0f")%string.
Proof.
  assert (H : sketch sample_host shipped 10 2 []
              = Some (tt, sample_two_cycles)) by (vm_compute; reflexivity).
  split; [exact H|]. split; [vm_compute; reflexivity|].
  exact (operator_reads_reports_in_order
           sample_host shipped 10 2 sample_two_cycles H).
Defined.

(** X4.  The callback only writes to the serial port: whatever the frame,
    it returns, every event it adds is a serial write, and so it leaves
    the radio's active channel and the list of activations as they were
    and polls for no frame. *)
Theorem cb_only_writes (info : esppl_frame_info) (h : history) :
  exists tr : list event,
    cb info h = Some (tt, h ++ tr) /\
    forallb is_serial_write tr = true /\
    activations (h ++ tr) = activations h /\
    active_channel (h ++ tr) = active_channel h /\
    delivered (h ++ tr) = delivered h.
Proof.
  exists (cb_events info).
  pose proof (RunFacts.cb_events_only_write info) as W.
  split; [apply CbFacts.cb_run|]. split; [exact W|].
  assert (A : activations (h ++ cb_events info) = activations h).
  { rewrite ShapeFacts.activations_app,
      (RunFacts.writes_activate_nothing _ W). apply app_nil_r. }
  split; [exact A|]. split.
  - unfold active_channel. now rewrite A.
  - rewrite RunFacts.delivered_app, (RunFacts.writes_deliver_nothing _ W).
    apply app_nil_r.
Qed.

(** X5.  One line feed per report: after a run of the sketch the serial
    output holds one line feed for the announcement and one for each
    delivered frame that passes the two filters. *)
Theorem one_line_feed_per_report
        (env : host) (cfg : config) (fuel n : nat) (h : history) :
  sketch env cfg fuel n [] = Some (tt, h) ->
  count_lf (serial_output h)
  = S (List.length (filter passes (delivered h))).
Proof.
  intros H.
  rewrite (operator_reads_reports_in_order env cfg fuel n h H).
  rewrite <- StringFacts.append_assoc, ReadFacts.count_lf_app.
  rewrite ReadFacts.count_lf_texts. reflexivity.
Qed.

Lemma one_line_feed_per_report_witness :
  sketch sample_host shipped 10 2 [] = Some (tt, sample_two_cycles) /\
  count_lf (serial_output sample_two_cycles) = 3%nat.
Proof.
  assert (H : sketch sample_host shipped 10 2 []
              = Some (tt, sample_two_cycles)) by (vm_compute; reflexivity).
  split; [exact H|].
  exact (one_line_feed_per_report
           sample_host shipped 10 2 sample_two_cycles H).
Defined.

(** X6.  A report can be read back: when the callback writes for a frame
    that passes, with a six-byte address, the same text as for another
    frame with a six-byte address, the two frames have the same type,
    subtype, signal strength, channel and source address. *)
Theorem report_determines_frame
        (f1 f2 : esppl_frame_info) (h1 h2 : history) :
  passes f1 = true ->
  List.length (sourceaddr f1) = 6%nat ->
  List.length (sourceaddr f2) = 6%nat ->
  printed (cb f1) h1 = printed (cb f2) h2 ->
  f1 = f2.
Proof.
  intros P1 L1 L2 H. rewrite !printed_report_text in H.
  injection H as H. unfold report_text in H. rewrite P1 in H.
  destruct (passes f2); [|discriminate H].
  apply StringFacts.append_cancel_l in H.
  now apply ReadFacts.report_line_injective.
Qed.

Lemma report_determines_frame_witness :
  passes probe_frame = true /\
  List.length (sourceaddr probe_frame) = 6%nat /\
  printed (cb probe_frame) [] = printed (cb probe_frame) [Yield] /\
  probe_frame = probe_frame.
Proof.
  assert (P : passes probe_frame = true) by reflexivity.
  assert (L : List.length (sourceaddr probe_frame) = 6%nat) by reflexivity.
  assert (E : printed (cb probe_frame) [] = printed (cb probe_frame) [Yield])
    by reflexivity.
  split; [exact P|]. split; [exact L|]. split; [exact E|].
  exact (report_determines_frame probe_frame probe_frame [] [Yield] P L L E).
Defined.

(** ** Runs of any length *)

Module RunsOnFacts.

Section WithHost.
Variable env : host.
Variable cfg : config.

Lemma scan_cycle_more_fuel (n m : nat) (h : history) (r : unit * history) :
  (n <= m)%nat ->
  scan_cycle env cfg n h = Some r -> scan_cycle env cfg m h = Some r.
Proof.
  unfold scan_cycle, bind, emit. intros Hle H.
  exact (EndFacts.for_range_more_fuel env cfg _ n m _ _ r Hle H).
Qed.

Lemma cycles_more_fuel (k : nat) :
  forall n m h r,
    (n <= m)%nat ->
    cycles env cfg n k h = Some r -> cycles env cfg m k h = Some r.
Proof.
  induction k as [|k IH]; intros n m h r Hle H; [exact H|].
  cbn [cycles] in *. unfold bind in *.
  destruct (scan_cycle env cfg n h) as [[[] h1]|] eqn:E; [|discriminate H].
  rewrite (scan_cycle_more_fuel n m h _ Hle E).
  exact (IH n m _ _ Hle H).
Qed.

Lemma cycles_end (Hb : bursts_end env) (Hc : clock_moves_on env cfg)
      (k : nat) :
  forall h, exists fuel h', cycles env cfg fuel k h = Some (tt, h').
Proof.
  induction k as [|k IH]; intros h.
  - exists 0%nat, h. reflexivity.
  - destruct (EndFacts.scan_cycle_ends env cfg Hb Hc h) as (n1 & h1 & H1).
    destruct (IH h1) as (n2 & h' & H2).
    exists (Nat.max n1 n2), h'. cbn [cycles]. unfold bind.
    rewrite (scan_cycle_more_fuel n1 _ h _ (Nat.le_max_l n1 n2) H1).
    exact (cycles_more_fuel k n2 _ _ _ (Nat.le_max_r n1 n2) H2).
Qed.

End WithHost.

End RunsOnFacts.



(** ** Start-up under any configuration *)

Module StartFacts.

Section WithHost.
Variable env : host.
Variable cfg : config.

(** The first cycle starts the capture right after the start-up, before it
    looks at the configuration; what follows is the [for] loop over the
    channels and the later cycles. *)
Lemma sketch_enters (fuel n : nat) :
  sketch env cfg fuel (S n) []
  = (for_range 0 (List.length (cfg_channels cfg)) (visit env cfg fuel) ;;
     cycles env cfg fuel n) (startup_events ++ [SniffingStart]).
Proof.
  unfold sketch, bind. rewrite setup_run. cbn [cycles].
  unfold scan_cycle, bind, emit. reflexivity.
Qed.

(** With no channel a cycle starts the capture and is over, under any
    host and with any fuel. *)
Lemma cycles_without_channels (fuel n : nat) :
  cfg_channels cfg = [] ->
  forall h, cycles env cfg fuel n h
            = Some (tt, h ++ repeat SniffingStart n).
Proof.
  intros E. induction n as [|m IH]; intros h.
  - cbn [cycles repeat]. unfold ret. now rewrite app_nil_r.
  - cbn [cycles repeat]. unfold bind, scan_cycle, emit. rewrite E.
    cbn [List.length for_range]. unfold bind, ret. rewrite IH.
    now rewrite <- app_assoc.
Qed.

(** With a dwell time of zero the dwell loop is left at its first clock
    check, under any host. *)
Lemma dwell_zero (k : nat) (start : Z) (h : history) :
  to_ulong (cfg_dwell cfg) = 0 ->
  dwell env cfg (S k) start h
  = Some (tt, h ++ [Millis (to_ulong (clock env h))]).
Proof.
  intros E. cbn [dwell]. unfold bind, millis, within_dwell. rewrite E.
  assert (B : 0 <= to_ulong (to_ulong (clock env h) - start)).
  { unfold to_ulong. apply Z.mod_pos_bound. reflexivity. }
  apply Z.ltb_ge in B. now rewrite B.
Qed.

Lemma for_range_zero_dwell (k count : nat) :
  to_ulong (cfg_dwell cfg) = 0 ->
  forall lo h,
  exists h', for_range lo count (visit env cfg (S k)) h = Some (tt, h').
Proof.
  intros E. induction count as [|c IH]; intros lo h.
  - exists h. reflexivity.
  - cbn [for_range]. unfold bind at 1.
    assert (V : exists h1, visit env cfg (S k) lo h = Some (tt, h1)).
    { unfold visit, bind, emit, millis. rewrite (dwell_zero k _ _ E).
      eexists. reflexivity. }
    destruct V as [h1 ->]. apply IH.
Qed.

Lemma cycles_zero_dwell (k n : nat) :
  to_ulong (cfg_dwell cfg) = 0 ->
  forall h, exists h', cycles env cfg (S k) n h = Some (tt, h').
Proof.
  intros E. induction n as [|m IH]; intros h.
  - exists h. reflexivity.
  - cbn [cycles]. unfold bind at 1. unfold scan_cycle, bind, emit.
    destruct (for_range_zero_dwell k (List.length (cfg_channels cfg)) E
                                   0%nat (h ++ [SniffingStart]))
      as [h1 ->].
    apply IH.
Qed.

End WithHost.

(** The ticking host serves every configuration. *)
Lemma ticking_host_bursts_end : bursts_end ticking_host.
Proof.
  exists (fun _ => 0%nat). intros h Hne. now elim Hne.
Qed.

Lemma ulong_step_one (a start : Z) :
  to_ulong (to_ulong a - start) + 1 < ULONG_MOD ->
  to_ulong (to_ulong (a + 1) - start) = to_ulong (to_ulong a - start) + 1.
Proof.
  unfold to_ulong.
  assert (HM : ULONG_MOD = 4294967296) by reflexivity.
  rewrite !Zminus_mod_idemp_l. intros H.
  replace (a + 1 - start) with ((a - start) + 1) by lia.
  rewrite <- Zplus_mod_idemp_l.
  pose proof (Z.mod_pos_bound (a - start) ULONG_MOD ltac:(lia)) as B.
  apply Z.mod_small. lia.
Qed.

Lemma ticking_host_clock_moves_on (cfg : config) :
  clock_moves_on ticking_host cfg.
Proof.
  exists (fun start h =>
            Z.to_nat (to_ulong (cfg_dwell cfg)
                      - to_ulong (to_ulong (clock ticking_host h) - start))).
  intros start h h1 n Hw Hd.
  destruct (ScanFacts.drain_shape ticking_host n _ _ Hd) as (bs & _ & ->).
  unfold within_dwell in Hw. apply Z.ltb_lt in Hw.
  assert (D : to_ulong (cfg_dwell cfg) < ULONG_MOD).
  { unfold to_ulong. apply Z.mod_pos_bound. reflexivity. }
  cbn [clock ticking_host] in *.
  rewrite EndFacts.count_millis_turn, Nat2Z.inj_succ.
  rewrite <- Z.add_1_r.
  rewrite (ulong_step_one _ start) by lia.
  assert (B : 0 <= to_ulong
                     (to_ulong (Z.of_nat (List.length (filter is_millis h)))
                      - start)).
  { unfold to_ulong at 1. apply Z.mod_pos_bound. reflexivity. }
  lia.
Qed.

End StartFacts.

(** C6, amended.  [setup] makes no check of the configuration: it reads
    neither the channel list nor the dwell time and always completes, after
    the delay, the opening of the serial port, the registration of the
    callback and the announcement; the first cycle then starts the capture
    whatever the configuration is, before the configuration is read.  No
    configuration is turned away: any configuration runs through its
    cycles under a host whose bursts of traffic end and whose clock moves
    on, and for every configuration the quiet ticking host is such a host;
    a configuration without channels runs under any host and with any
    fuel, activating nothing; a configuration with a dwell time of zero
    runs under any host, activating its channels in order.  The
    configuration of the sketch is fixed in its text, a list of four
    channels and a dwell time of 250 ms, so [loop] itself never runs on an
    empty list or a non-positive dwell time. *)
Theorem startup_makes_no_check :
  (forall h : history, setup h = Some (tt, h ++ startup_events))
  /\ (forall (env : host) (cfg : config) (fuel n : nat),
        sketch env cfg fuel (S n) []
        = (for_range 0 (List.length (cfg_channels cfg)) (visit env cfg fuel) ;;
           cycles env cfg fuel n) (startup_events ++ [SniffingStart]))
  /\ (forall (env : host) (cfg : config) (n : nat),
        bursts_end env -> clock_moves_on env cfg ->
        exists (fuel : nat) (h rest : history),
          sketch env cfg fuel (S n) [] = Some (tt, h) /\
          h = startup_events ++ [SniffingStart] ++ rest)
  /\ (forall (cfg : config) (n : nat),
        exists (fuel : nat) (h rest : history),
          sketch ticking_host cfg fuel (S n) [] = Some (tt, h) /\
          h = startup_events ++ [SniffingStart] ++ rest)
  /\ (forall (env : host) (cfg : config) (fuel n : nat),
        cfg_channels cfg = [] ->
        sketch env cfg fuel n []
        = Some (tt, startup_events ++ repeat SniffingStart n))
  /\ (forall (env : host) (cfg : config) (fuel n : nat),
        to_ulong (cfg_dwell cfg) = 0 ->
        exists h rest : history,
          sketch env cfg (S fuel) (S n) [] = Some (tt, h) /\
          h = startup_events ++ [SniffingStart] ++ rest /\
          activations h = List.concat (repeat (cfg_channels cfg) (S n)))
  /\ cfg_channels shipped = [1; 4; 6; 11]
  /\ channelCount = 4%nat
  /\ cfg_dwell shipped = 250
  /\ (forall env fuel, loop env fuel = scan_cycle env shipped fuel).
Proof.
  assert (Coop : forall (env : host) (cfg : config) (n : nat),
             bursts_end env -> clock_moves_on env cfg ->
             exists (fuel : nat) (h rest : history),
               sketch env cfg fuel (S n) [] = Some (tt, h) /\
               h = startup_events ++ [SniffingStart] ++ rest).
  { intros env cfg n Hb Hc.
    destruct (RunsOnFacts.cycles_end env cfg Hb Hc (S n) startup_events)
      as (fuel & h & H).
    assert (Hs : sketch env cfg fuel (S n) [] = Some (tt, h)).
    { unfold sketch, bind. rewrite setup_run. exact H. }
    destruct (completed_run_entered env cfg fuel n h Hs) as [rest Hr].
    exists fuel, h, rest. split; [exact Hs|exact Hr]. }
  split; [exact setup_run|].
  split; [exact StartFacts.sketch_enters|].
  split; [exact Coop|].
  split.
  { intros cfg n.
    exact (Coop ticking_host cfg n StartFacts.ticking_host_bursts_end
                (StartFacts.ticking_host_clock_moves_on cfg)). }
  split.
  { intros env cfg fuel n E. unfold sketch, bind. rewrite setup_run.
    exact (StartFacts.cycles_without_channels env cfg fuel n E _). }
  split; [|repeat split].
  intros env cfg fuel n E.
  destruct (StartFacts.cycles_zero_dwell env cfg fuel (S n) E startup_events)
    as [h H].
  assert (Hs : sketch env cfg (S fuel) (S n) [] = Some (tt, h)).
  { unfold sketch, bind. rewrite setup_run. exact H. }
  destruct (completed_run_entered env cfg (S fuel) n h Hs) as [rest Hr].
  exists h, rest. split; [exact Hs|]. split; [exact Hr|].
  destruct (RunFacts.sketch_summary env cfg (S fuel) (S n) h Hs)
    as (tr & -> & _ & Ha & _).
  rewrite ShapeFacts.activations_app. exact Ha.
Qed.

Lemma startup_makes_no_check_witness :
  cfg_dwell negative_dwell <= 0 /\
  bursts_end ticking_host /\
  clock_moves_on ticking_host negative_dwell /\
  (exists (fuel : nat) (h rest : history),
      sketch ticking_host negative_dwell fuel 1 [] = Some (tt, h) /\
      h = startup_events ++ [SniffingStart] ++ rest) /\
  cfg_channels no_channels = [] /\
  sketch sample_host no_channels 0 3 []
  = Some (tt, startup_events ++ [SniffingStart; SniffingStart; SniffingStart])
  /\
  to_ulong (cfg_dwell no_dwell) = 0 /\
  (exists h rest : history,
      sketch sample_host no_dwell 1 1 [] = Some (tt, h) /\
      h = startup_events ++ [SniffingStart] ++ rest /\
      activations h = [1; 4; 6; 11]).
Proof.
  assert (Hb : bursts_end ticking_host)
    by exact StartFacts.ticking_host_bursts_end.
  assert (Hc : clock_moves_on ticking_host negative_dwell)
    by exact (StartFacts.ticking_host_clock_moves_on negative_dwell).
  assert (He : cfg_channels no_channels = []) by reflexivity.
  assert (Hz : to_ulong (cfg_dwell no_dwell) = 0) by reflexivity.
  split; [discriminate|]. split; [exact Hb|]. split; [exact Hc|].
  split.
  { exact (proj1 (proj2 (proj2 startup_makes_no_check))
                 ticking_host negative_dwell 0%nat Hb Hc). }
  split; [exact He|]. split.
  { exact (proj1 (proj2 (proj2 (proj2 (proj2 startup_makes_no_check))))
                 sample_host no_channels 0%nat 3%nat He). }
  split; [exact Hz|].
  exact (proj1 (proj2 (proj2 (proj2 (proj2 (proj2 startup_makes_no_check)))))
               sample_host no_dwell 0%nat 0%nat Hz).
Defined.
